(** * JSDataLinker: the Firebase wrappers, embedded and verified

    The development follows the three wrapper classes of the package:
    [RealTime] (src/firebase/RealTimeModel.js, first part), [Firestore]
    (same file, second part) and [Authentication]
    (src/firebase/AuthenticationModel.js).

    JavaScript values are a small inductive type; an [async] method is a
    function from the state of the platform to an outcome (resolved or
    rejected) and a new state.  The platform SDK is an external collaborator:
    its references, its document store, its identifier generator and the
    failures it may raise are modelled in [Module Platform]. *)

From Stdlib Require Import String List Bool Arith ZArith Lia DecimalString.
Import ListNotations.
Local Open Scope string_scope.
Local Open Scope list_scope.

(** ** JavaScript values *)

Module JS.

#[local] Set Warnings "-register-all".

Inductive value : Type :=
| VUndefined
| VNull
| VBool (b : bool)
| VNaN
| VNum (z : Z)
| VStr (s : string)
| VObj (fields : list (string * value))
| VArr (items : list value).

(** Structural equality, by value on all fields. *)
Fixpoint value_eqb (a b : value) {struct a} : bool :=
  match a, b with
  | VUndefined, VUndefined => true
  | VNull, VNull => true
  | VBool x, VBool y => Bool.eqb x y
  | VNaN, VNaN => true
  | VNum x, VNum y => Z.eqb x y
  | VStr x, VStr y => String.eqb x y
  | VObj fa, VObj fb =>
      (fix fields_eqb (l1 l2 : list (string * value)) {struct l1} : bool :=
         match l1, l2 with
         | [], [] => true
         | (k1, v1) :: t1, (k2, v2) :: t2 =>
             String.eqb k1 k2 && value_eqb v1 v2 && fields_eqb t1 t2
         | _, _ => false
         end) fa fb
  | VArr la, VArr lb =>
      (fix items_eqb (l1 l2 : list value) {struct l1} : bool :=
         match l1, l2 with
         | [], [] => true
         | v1 :: t1, v2 :: t2 => value_eqb v1 v2 && items_eqb t1 t2
         | _, _ => false
         end) la lb
  | _, _ => false
  end.

(** An induction principle that reaches inside objects and arrays. *)
Section ValueInd.
Variable P : value -> Prop.
Hypothesis Hundef : P VUndefined.
Hypothesis Hnull : P VNull.
Hypothesis Hbool : forall b, P (VBool b).
Hypothesis Hnan : P VNaN.
Hypothesis Hnum : forall z, P (VNum z).
Hypothesis Hstr : forall s, P (VStr s).
Hypothesis Hobj : forall fields, Forall (fun kv => P (snd kv)) fields -> P (VObj fields).
Hypothesis Harr : forall items, Forall P items -> P (VArr items).

Fixpoint value_ind' (v : value) : P v :=
  match v with
  | VUndefined => Hundef
  | VNull => Hnull
  | VBool b => Hbool b
  | VNaN => Hnan
  | VNum z => Hnum z
  | VStr s => Hstr s
  | VObj fields =>
      Hobj fields
        ((fix go (l : list (string * value)) : Forall (fun kv => P (snd kv)) l :=
            match l with
            | [] => Forall_nil _
            | kv :: t => Forall_cons kv (value_ind' (snd kv)) (go t)
            end) fields)
  | VArr items =>
      Harr items
        ((fix go (l : list value) : Forall P l :=
            match l with
            | [] => Forall_nil _
            | x :: t => Forall_cons x (value_ind' x) (go t)
            end) items)
  end.
End ValueInd.

(** Truthiness, as used by the conditional operator. *)
Definition truthy (v : value) : bool :=
  match v with
  | VUndefined | VNull | VNaN => false
  | VBool b => b
  | VNum z => negb (Z.eqb z 0)
  | VStr s => negb (String.eqb s "")
  | VObj _ | VArr _ => true
  end.

Definition nullish (v : value) : bool :=
  match v with
  | VUndefined | VNull => true
  | _ => false
  end.

(** [v === undefined] *)
Definition is_undefined (v : value) : bool :=
  match v with
  | VUndefined => true
  | _ => false
  end.

(** Outcome of evaluating an expression or of awaiting a promise: a value,
    or a thrown value (any JavaScript value can be thrown). *)
Inductive outcome (A : Type) : Type :=
| Resolved (a : A)
| Rejected (e : value).
Arguments Resolved {A} a.
Arguments Rejected {A} e.

Definition TypeError (message : string) : value :=
  VObj [("name", VStr "TypeError"); ("message", VStr message)].

Definition Error (message : string) : value :=
  VObj [("name", VStr "Error"); ("message", VStr message)].

Fixpoint assoc (k : string) (fields : list (string * value)) : option value :=
  match fields with
  | [] => None
  | (k', v) :: rest => if String.eqb k k' then Some v else assoc k rest
  end.

(** Property read [v.name] for a non-index name: it throws on [undefined]
    and [null], finds own data properties of objects, and is [undefined]
    elsewhere. *)
Definition get_prop (v : value) (name : string) : outcome value :=
  match v with
  | VUndefined => Rejected (TypeError (String.append "Cannot read properties of undefined, reading " name))
  | VNull => Rejected (TypeError (String.append "Cannot read properties of null, reading " name))
  | VObj fields =>
      match assoc name fields with
      | Some x => Resolved x
      | None => Resolved VUndefined
      end
  | _ => Resolved VUndefined
  end.

(** Element read [v[i]] on an array; [undefined] out of range. *)
Definition get_index (v : value) (i : nat) : outcome value :=
  match v with
  | VUndefined => Rejected (TypeError "Cannot read properties of undefined")
  | VNull => Rejected (TypeError "Cannot read properties of null")
  | VArr items => Resolved (nth i items VUndefined)
  | _ => Resolved VUndefined
  end.

(** Assignment [o[k] = v] on the property list of an object: an existing key
    keeps its position, a new key goes last. *)
Fixpoint set_prop (k : string) (v : value) (fields : list (string * value))
  : list (string * value) :=
  match fields with
  | [] => [(k, v)]
  | (k', v') :: rest =>
      if String.eqb k k' then (k, v) :: rest else (k', v') :: set_prop k v rest
  end.

Definition index_key (n : nat) : string :=
  NilZero.string_of_uint (Nat.to_uint n).

Fixpoint indexed {A : Type} (f : A -> value) (i : nat) (l : list A)
  : list (string * value) :=
  match l with
  | [] => []
  | x :: rest => (index_key i, f x) :: indexed f (S i) rest
  end.

Fixpoint chars (s : string) : list string :=
  match s with
  | EmptyString => []
  | String c rest => String c EmptyString :: chars rest
  end.

(** Own enumerable properties, in enumeration order. *)
Definition own_props (v : value) : list (string * value) :=
  match v with
  | VObj fields => fields
  | VArr items => indexed (fun x => x) 0 items
  | VStr s => indexed VStr 0 (chars s)
  | _ => []
  end.

(** Object spread [{ ...target, ...v }] onto an existing property list. *)
Definition spread (target : list (string * value)) (v : value)
  : list (string * value) :=
  fold_left (fun acc kv => set_prop (fst kv) (snd kv) acc) (own_props v) target.

(** [Object.values(v)]: throws on [undefined] and [null]. *)
Definition Object_values (v : value) : outcome (list value) :=
  match v with
  | VUndefined | VNull =>
      Rejected (TypeError "Cannot convert undefined or null to object")
  | _ => Resolved (map snd (own_props v))
  end.

(** [try { body } catch (error) { handler(error) }] *)
Definition try_catch {A : Type} (body : outcome A) (handler : value -> outcome A)
  : outcome A :=
  match body with
  | Resolved a => Resolved a
  | Rejected e => handler e
  end.

Definition obind {A B : Type} (m : outcome A) (k : A -> outcome B) : outcome B :=
  match m with
  | Resolved a => k a
  | Rejected e => Rejected e
  end.

(** The two-element array [[flag, payload]] every wrapper aims to return. *)
Definition pair_result (flag : bool) (payload : value) : value :=
  VArr [VBool flag; payload].

(** The shared handler [catch (error) { return [false, error.message]; }].
    Reading [error.message] itself throws when [error] is [undefined] or
    [null]. *)
Definition catch_message (error : value) : outcome value :=
  obind (get_prop error "message") (fun m => Resolved (pair_result false m)).

End JS.
Export JS.

(** ** The platform: the external collaborator

    The Firebase SDKs are not part of the package.  What the wrappers rely on
    is modelled here: the two kinds of Firestore reference and the methods
    each kind offers, a document store and a realtime tree keyed by path, an
    identifier generator for [doc()] and [push()], and a plan of failures
    (network errors and the like) that the next remote calls will raise.
    Identifiers are opaque: the syntax checks the platform applies to them
    are outside the model. *)

Module Platform.

Definition path := list string.

Definition path_eq_dec : forall p q : path, {p = q} + {p <> q} :=
  list_eq_dec string_dec.

(** Path-keyed storage, in enumeration order. *)
Definition entries := list (path * value).

Fixpoint lookup (p : path) (l : entries) : option value :=
  match l with
  | [] => None
  | (q, v) :: rest => if path_eq_dec p q then Some v else lookup p rest
  end.

Fixpoint put (p : path) (v : value) (l : entries) : entries :=
  match l with
  | [] => [(p, v)]
  | (q, w) :: rest =>
      if path_eq_dec p q then (p, v) :: rest else (q, w) :: put p v rest
  end.

Fixpoint erase (p : path) (l : entries) : entries :=
  match l with
  | [] => []
  | (q, w) :: rest =>
      if path_eq_dec p q then erase p rest else (q, w) :: erase p rest
  end.

(** [child_id parent q] is the identifier [id] when [q = parent ++ [id]]. *)
Fixpoint child_id (parent q : path) : option string :=
  match parent, q with
  | [], [id] => Some id
  | a :: parent', b :: q' => if string_dec a b then child_id parent' q' else None
  | _, _ => None
  end.

(** Immediate children of [parent], in the enumeration order of the store. *)
Fixpoint children (parent : path) (l : entries) : list (string * value) :=
  match l with
  | [] => []
  | (q, v) :: rest =>
      match child_id parent q with
      | Some id => (id, v) :: children parent rest
      | None => children parent rest
      end
  end.

Record platform : Type := mkPlatform {
  docs : entries;                 (* Firestore documents *)
  nodes : entries;                (* realtime database nodes *)
  faults : list (option value);   (* what the next remote calls raise *)
  idgen : nat -> string;          (* identifiers doc() and push() hand out *)
  next : nat
}.

Definition with_docs (d : entries) (s : platform) : platform :=
  mkPlatform d (nodes s) (faults s) (idgen s) (next s).

Definition with_nodes (n : entries) (s : platform) : platform :=
  mkPlatform (docs s) n (faults s) (idgen s) (next s).

Definition with_faults (f : list (option value)) (s : platform) : platform :=
  mkPlatform (docs s) (nodes s) f (idgen s) (next s).

(** An asynchronous computation: it resolves or rejects, and leaves the
    platform in a new state either way. *)
Definition Async (A : Type) : Type := platform -> outcome A * platform.

Definition ret {A : Type} (a : A) : Async A := fun s => (Resolved a, s).

Definition throw {A : Type} (e : value) : Async A := fun s => (Rejected e, s).

Definition bind {A B : Type} (m : Async A) (k : A -> Async B) : Async B :=
  fun s =>
    match m s with
    | (Resolved a, s') => k a s'
    | (Rejected e, s') => (Rejected e, s')
    end.

Definition lift {A : Type} (o : outcome A) : Async A := fun s => (o, s).

(** [try { body } catch (error) { handler(error) }] around awaited code. *)
Definition try_async {A : Type} (body : Async A) (handler : value -> Async A)
  : Async A :=
  fun s =>
    match body s with
    | (Resolved a, s') => (Resolved a, s')
    | (Rejected e, s') => handler e s'
    end.

Declare Scope async_scope.
Delimit Scope async_scope with async.
Notation "x <- c ;; k" := (bind c (fun x => k))
  (at level 61, c at next level, right associativity) : async_scope.
Notation "c ;;; k" := (bind c (fun _ => k))
  (at level 61, right associativity) : async_scope.
Local Open Scope async_scope.

(** One remote round trip: it raises the planned failure, if any. *)
Definition remote : Async unit :=
  fun s =>
    match faults s with
    | Some e :: rest => (Rejected e, with_faults rest s)
    | None :: rest => (Resolved tt, with_faults rest s)
    | [] => (Resolved tt, s)
    end.

(** A fresh identifier, generated on the client. *)
Definition auto_id : Async string :=
  fun s =>
    (Resolved (idgen s (next s)),
     mkPlatform (docs s) (nodes s) (faults s) (idgen s) (S (next s))).

(** *** Firestore references *)

Inductive reference : Type :=
| CollectionReference (p : path)
| DocumentReference (p : path).

Definition ref_path (r : reference) : path :=
  match r with
  | CollectionReference p => p
  | DocumentReference p => p
  end.

(** [admin.firestore().collection(name)] *)
Definition firestore_collection (name : string) : reference :=
  CollectionReference [name].

(** [ref.doc(id)]: a method of collection references only.  The identifier
    is kept as one segment; an identifier with slashes, which the platform
    splits, is outside the model (see [Domain.plain_id]). *)
Definition doc (r : reference) (id : value) : outcome reference :=
  match r with
  | CollectionReference p =>
      match id with
      | VStr s => Resolved (DocumentReference (p ++ [s]))
      | _ => Rejected (Error "documentPath is not a string")
      end
  | DocumentReference _ => Rejected (TypeError "doc is not a function")
  end.

(** [ref.doc()]: a document reference with an auto-generated identifier. *)
Definition doc_auto (r : reference) : Async reference :=
  match r with
  | CollectionReference p =>
      id <- auto_id ;; ret (DocumentReference (p ++ [id]))
  | DocumentReference _ => throw (TypeError "doc is not a function")
  end.

(** [ref.collection(name)]: a method of document references only. *)
Definition collection (r : reference) (name : string) : outcome reference :=
  match r with
  | DocumentReference p => Resolved (CollectionReference (p ++ [name]))
  | CollectionReference _ => Rejected (TypeError "collection is not a function")
  end.

(** [docRef.set(data)] *)
Definition doc_set (r : reference) (data : value) : Async unit :=
  match r with
  | DocumentReference p =>
      remote ;;; (fun s => (Resolved tt, with_docs (put p data (docs s)) s))
  | CollectionReference _ => throw (TypeError "set is not a function")
  end.

(** What [ref.get()] resolves to: a document snapshot for a document
    reference, a query snapshot for a collection reference. *)
Inductive snapshot : Type :=
| DocumentSnapshot (stored : option value)
| QuerySnapshot (found : list (string * value)).

(** [snapshot.exists]; a query snapshot has no such property. *)
Definition snapshot_exists (snap : snapshot) : bool :=
  match snap with
  | DocumentSnapshot (Some _) => true
  | _ => false
  end.

(** [snapshot.data()] of an existing document. *)
Definition snapshot_data (snap : snapshot) : value :=
  match snap with
  | DocumentSnapshot (Some d) => d
  | _ => VUndefined
  end.

(** [ref.get()] *)
Definition ref_get (r : reference) : Async snapshot :=
  match r with
  | DocumentReference p =>
      remote ;;; (fun s => (Resolved (DocumentSnapshot (lookup p (docs s))), s))
  | CollectionReference p =>
      remote ;;; (fun s => (Resolved (QuerySnapshot (children p (docs s))), s))
  end.

(** [docRef.update(data)]: merges the top-level fields of [data] into an
    existing document and fails when there is none.  Keys are taken as field
    names; a key the platform would read as a path into nested fields is
    outside the model (see [Domain.valid_patch]). *)
Definition doc_update (r : reference) (data : value) : Async unit :=
  match r with
  | DocumentReference p =>
      remote ;;;
      (fun s =>
         match lookup p (docs s) with
         | Some old =>
             (Resolved tt,
              with_docs (put p (VObj (spread (own_props old) data)) (docs s)) s)
         | None => (Rejected (Error "NOT_FOUND: No document to update"), s)
         end)
  | CollectionReference _ => throw (TypeError "update is not a function")
  end.

(** [docRef.delete()]: succeeds whether or not the document exists. *)
Definition doc_delete (r : reference) : Async unit :=
  match r with
  | DocumentReference p =>
      remote ;;; (fun s => (Resolved tt, with_docs (erase p (docs s)) s))
  | CollectionReference _ => throw (TypeError "delete is not a function")
  end.

(** [collectionRef.listDocuments()]: a method of collection references only. *)
Definition listDocuments (r : reference) : Async (list reference) :=
  match r with
  | CollectionReference p =>
      remote ;;;
      (fun s =>
         (Resolved (map (fun kv => DocumentReference (p ++ [fst kv]))
                        (children p (docs s))), s))
  | DocumentReference _ => throw (TypeError "listDocuments is not a function")
  end.

(** *** Realtime database *)

(** [push(ref)]: a child location with a fresh key, made on the client. *)
Definition push (ref : path) : Async path :=
  key <- auto_id ;; ret (ref ++ [key]).

(** [child(ref, id)] *)
Definition child (ref : path) (id : string) : path := ref ++ [id].

(** [set(ref, data)].  The value is kept as given; what the database does to
    [null], to empty objects and to invalid keys is not modelled here (see
    [Domain.rtdb_storable]). *)
Definition set (ref : path) (data : value) : Async unit :=
  remote ;;; (fun s => (Resolved tt, with_nodes (put ref data (nodes s)) s)).

(** [get(ref)]: the snapshot, as the list of its child snapshots. *)
Definition get (ref : path) : Async (list (string * value)) :=
  remote ;;; (fun s => (Resolved (children ref (nodes s)), s)).

(** [remove(ref)] *)
Definition remove (ref : path) : Async unit :=
  remote ;;; (fun s => (Resolved tt, with_nodes (erase ref (nodes s)) s)).

End Platform.
Export Platform.
Local Open Scope async_scope.

(** ** The Firestore wrapper (src/firebase/RealTimeModel.js, second part) *)

Module FirestoreModel.

(** The fields the constructor stores.  [this.collection] is recomputed from
    [collectionName]; [nestedPaths] defaults to the empty array. *)
Record Firestore : Type := mkFirestore {
  collectionName : string;
  uid : value;
  nestedPaths : list string
}.

Definition this_collection (this : Firestore) : reference :=
  firestore_collection (collectionName this).

(** The loop of [getNestedCollectionReference]: the index advances by two;
    a full pair goes through [.doc(d).collection(c)], a last single segment
    through [.doc(d)] only. *)
Fixpoint descend (collectionRef : reference) (segments : list string)
  : outcome reference :=
  match segments with
  | [] => Resolved collectionRef
  | [d] => doc collectionRef (VStr d)
  | d :: c :: rest =>
      obind (doc collectionRef (VStr d)) (fun r1 =>
      obind (collection r1 c) (fun r2 =>
      descend r2 rest))
  end.

(** [getNestedCollectionReference(uid = null)] *)
Definition getNestedCollectionReference (this : Firestore) (uid : value)
  : Async reference :=
  collectionRef <- lift (descend (this_collection this) (nestedPaths this)) ;;
  if truthy uid then lift (doc collectionRef uid) else doc_auto collectionRef.

(** Modelled from the spec: [getDocumentIdByContent]
    (src/firebase/utils/firebase/getDocumentIdByContent.js is not among the
    sources).  It re-queries the collection that holds the reference and
    returns the identifier of the first document, in the enumeration order
    of the collection, whose stored content equals the record by value on
    all fields. *)
Definition collection_of (r : reference) : path :=
  match r with
  | CollectionReference p => p
  | DocumentReference p => removelast p
  end.

Fixpoint first_match (record : value) (l : list (string * value)) : option string :=
  match l with
  | [] => None
  | (id, stored) :: rest =>
      if value_eqb stored record then Some id else first_match record rest
  end.

Definition getDocumentIdByContent (docRef : reference) (record : value)
  : Async (option string) :=
  remote ;;;
  (fun s => (Resolved (first_match record (children (collection_of docRef) (docs s))), s)).

Definition id_value (found : option string) : value :=
  match found with
  | Some id => VStr id
  | None => VUndefined
  end.

(** [async create(data)] *)
Definition create (this : Firestore) (data : value) : Async value :=
  docRef <- getNestedCollectionReference this VNull ;;
  doc_set docRef data ;;;
  docID <- getDocumentIdByContent docRef data ;;
  ret (pair_result true (id_value docID)).

(** [async read()] *)
Definition read (this : Firestore) : Async value :=
  docRef <- getNestedCollectionReference this (uid this) ;;
  docSnapshot <- ref_get docRef ;;
  if negb (snapshot_exists docSnapshot)
  then ret (pair_result false (VStr "Document does not exist"))
  else ret (pair_result true (snapshot_data docSnapshot)).

(** [async update(data)] *)
Definition update (this : Firestore) (data : value) : Async value :=
  docRef <- getNestedCollectionReference this (uid this) ;;
  doc_update docRef data ;;;
  ret (pair_result true VNaN).

(** [async delete()] *)
Definition delete (this : Firestore) : Async value :=
  docRef <- getNestedCollectionReference this (uid this) ;;
  doc_delete docRef ;;;
  ret (pair_result true VNaN).

(** [doc.path.split("/")[1]]: the second segment of the path, [undefined]
    when there is none. *)
Definition second_segment (r : reference) : value :=
  match nth_error (ref_path r) 1 with
  | Some seg => VStr seg
  | None => VUndefined
  end.

(** [async readPaths()] *)
Definition readPaths (this : Firestore) : Async value :=
  docRef <- getNestedCollectionReference this VNull ;;
  listed <- listDocuments docRef ;;
  ret (pair_result true (VArr (map second_segment listed))).

(** The string a value becomes when used as a property key. *)
Fixpoint property_key (v : value) : string :=
  match v with
  | VStr s => s
  | VUndefined => "undefined"
  | VNull => "null"
  | VBool true => "true"
  | VBool false => "false"
  | VNaN => "NaN"
  | VNum z => NilZero.string_of_int (Z.to_int z)
  | VObj _ => "[object Object]"
  | VArr items =>
      (fix join (l : list value) : string :=
         match l with
         | [] => ""
         | x :: rest =>
             String.append (if nullish x then "" else property_key x)
               match rest with
               | [] => ""
               | _ => String.append "," (join rest)
               end
         end) items
  end.

(** The body of [for (const path of paths)] in [readAll], threaded over the
    elements with the object [allDocs] built so far. *)
Fixpoint readAll_loop (this : Firestore) (paths : list value)
    (allDocs : list (string * value)) : Async (list (string * value)) :=
  match paths with
  | [] => ret allDocs
  | path :: rest =>
      docSnapshot <- read (mkFirestore (collectionName this) path []) ;;
      payload <- lift (get_index docSnapshot 1) ;;
      readAll_loop this rest (set_prop (property_key path) payload allDocs)
  end.

(** [async readAll()] *)
Definition readAll (this : Firestore) : Async value :=
  paths <- readPaths this ;;
  paths <- lift (get_index paths 1) ;;
  match paths with
  | VArr items =>
      allDocs <- readAll_loop this items [] ;;
      ret (pair_result true (VObj allDocs))
  | _ => throw (TypeError "paths is not iterable")
  end.

End FirestoreModel.

(** ** The RealTime wrapper (src/firebase/RealTimeModel.js, first part) *)

Module RealTimeModel.

(** [this.itemsRef = ref(this.database, path)], the path as its segments. *)
Record RealTime : Type := mkRealTime {
  itemsRef : path
}.

(** [ref.key]: the last segment, [null] at the root. *)
Definition key (ref : path) : value :=
  match rev ref with
  | k :: _ => VStr k
  | [] => VNull
  end.

Definition handler (error : value) : Async value := lift (catch_message error).

(** [async create(data)] *)
Definition create (this : RealTime) (data : value) : Async value :=
  try_async
    (values <- lift (Object_values data) ;;
     if existsb is_undefined values
     then ret (pair_result false (VStr "Data contains undefined values"))
     else
       newItemRef <- push (itemsRef this) ;;
       set newItemRef data ;;;
       ret (pair_result true (key newItemRef)))
    handler.

(** [{ id: childSnapshot.key, ...childSnapshot.val() }] *)
Definition item (childSnapshot : string * value) : value :=
  VObj (spread [("id", VStr (fst childSnapshot))] (snd childSnapshot)).

(** [async read()] *)
Definition read (this : RealTime) : Async value :=
  try_async
    (snapshot <- get (itemsRef this) ;;
     ret (pair_result true (VArr (map item snapshot))))
    handler.

(** [async update(id, newData)] *)
Definition update (this : RealTime) (id : string) (newData : value) : Async value :=
  try_async
    (set (child (itemsRef this) id) newData ;;;
     ret (pair_result true (VBool true)))
    handler.

(** [async delete(id)] *)
Definition delete (this : RealTime) (id : string) : Async value :=
  try_async
    (remove (child (itemsRef this) id) ;;;
     ret (pair_result true (VBool true)))
    handler.

End RealTimeModel.

(** ** The Authentication wrapper (src/firebase/AuthenticationModel.js) *)

Module AuthenticationModel.

(** The collaborators of the class.  [auth] is the service object handed to
    the constructor, one function per method the class calls on it; each
    call returns or throws.  [signInWithEmailAndPassword] stands for
    [firebase.auth().signInWithEmailAndPassword], [toJSON] for the method of
    that name on a user record, and [users_read] for the attempt
    [new Firestore("users", userRecord.uid)] followed by [read()] that
    [getUsers] makes for each user (the module does not import [Firestore],
    so the attempt may well throw; any outcome is allowed here). *)
Record Authentication : Type := mkAuthentication {
  auth_createUser : value -> outcome value;
  auth_generateEmailVerificationLink : value -> outcome value;
  signInWithEmailAndPassword : value -> value -> outcome value;
  auth_updateUser : value -> value -> outcome value;
  toJSON : value -> outcome value;
  auth_getUser : value -> outcome value;
  auth_deleteUser : value -> outcome value;
  auth_createSessionCookie : value -> value -> outcome value;
  auth_verifySessionCookie : value -> value -> outcome value;
  auth_sendPasswordResetEmail : value -> outcome value;
  auth_listUsers : outcome value;
  users_read : value -> outcome value
}.

(** [async createUser(userData)] *)
Definition createUser (this : Authentication) (userData : value) : outcome value :=
  try_catch
    (obind (auth_createUser this userData) (fun userRecord =>
     obind (get_prop userRecord "uid") (fun u =>
     Resolved (pair_result true u))))
    catch_message.

(** [verificationEmail(email)]: no [try], the result of the service call is
    returned as it is. *)
Definition verificationEmail (this : Authentication) (email : value) : outcome value :=
  auth_generateEmailVerificationLink this email.

(** [async loginUser(email, password)] *)
Definition loginUser (this : Authentication) (email password : value) : outcome value :=
  try_catch
    (obind (signInWithEmailAndPassword this email password) (fun userRecord =>
     obind (get_prop userRecord "user") (fun user =>
     obind (get_prop user "uid") (fun u =>
     Resolved (pair_result true u)))))
    catch_message.

(** [userRecord.toJSON()] *)
Definition call_toJSON (this : Authentication) (userRecord : value) : outcome value :=
  obind (get_prop userRecord "toJSON") (fun _ => toJSON this userRecord).

(** [async updateUser(uid, updateUserData)] *)
Definition updateUser (this : Authentication) (uid updateUserData : value)
  : outcome value :=
  try_catch
    (obind (auth_updateUser this uid updateUserData) (fun userRecord =>
     obind (call_toJSON this userRecord) (fun json =>
     Resolved (pair_result true json))))
    catch_message.

(** [async getUser(uid)] *)
Definition getUser (this : Authentication) (uid : value) : outcome value :=
  try_catch
    (obind (auth_getUser this uid) (fun user =>
     Resolved (pair_result true user)))
    catch_message.

(** [async deleteUser(uid)] *)
Definition deleteUser (this : Authentication) (uid : value) : outcome value :=
  try_catch
    (obind (auth_deleteUser this uid) (fun _ =>
     Resolved (pair_result true uid)))
    catch_message.

(** [async createPhoneVerification(phoneNumber)] *)
Definition createPhoneVerification (this : Authentication) (phoneNumber : value)
  : outcome value :=
  try_catch
    (obind (auth_createSessionCookie this phoneNumber
              (VObj [("expiresIn", VNum 3600)])) (fun request =>
     Resolved request))
    catch_message.

(** [async verifyPhoneVerification(verificationId, otp)] *)
Definition verifyPhoneVerification (this : Authentication)
    (verificationId otp : value) : outcome value :=
  try_catch
    (obind (auth_verifySessionCookie this verificationId otp) (fun userCreds =>
     Resolved userCreds))
    catch_message.

(** [async resetPassword(email)] *)
Definition resetPassword (this : Authentication) (email : value) : outcome value :=
  try_catch
    (obind (auth_sendPasswordResetEmail this email) (fun request =>
     Resolved request))
    catch_message.

(** The callback [getUsers] maps over the user records; its inner
    [try]/[catch] swallows whatever the Firestore attempt throws. *)
Definition user_entry (this : Authentication) (userRecord : value) : value :=
  let userData :=
    match users_read this userRecord with
    | Resolved d => d
    | Rejected _ => VObj [("error", VStr "No user data found")]
    end in
  VObj (spread (spread [] userRecord) userData).

(** [async getUsers()] *)
Definition getUsers (this : Authentication) : outcome value :=
  try_catch
    (obind (auth_listUsers this) (fun listUsersResult =>
     obind (get_prop listUsersResult "users") (fun users =>
     match users with
     | VArr records => Resolved (VArr (map (user_entry this) records))
     | VUndefined | VNull =>
         Rejected (TypeError "Cannot read properties of undefined, reading map")
     | _ => Rejected (TypeError "map is not a function")
     end)))
    catch_message.

(** The double quote and the line break, as one-character strings. *)
Definition dquote : string := String (Ascii.ascii_of_nat 34) EmptyString.

Definition newline : string := String (Ascii.ascii_of_nat 10) EmptyString.

(** The template of [emailVerification] up to the place of [${url}], line by
    line. *)
Definition page_head : string :=
  String.concat newline
    [ EmptyString;
      "    <!DOCTYPE html>";
      String.concat dquote ["    <html lang="; "en"; ">"];
      "    <head>";
      String.concat dquote ["        <meta charset="; "UTF-8"; ">"];
      String.concat dquote ["        <meta name="; "viewport"; " content="; "width=device-width, initial-scale=1.0"; ">"];
      "        <title>Email Verification - CivicCircle</title>";
      "        <style>";
      "            /* Add your custom CSS styles here */";
      "        </style>";
      "    </head>";
      "    <body>";
      String.concat dquote ["        <div style="; "background-color: #f3f4f6; padding: 20px;"; ">"];
      String.concat dquote ["            <div style="; "max-width: 600px; margin: 0 auto; background-color: #ffffff; border-radius: 8px; padding: 40px; box-shadow: 0 4px 8px rgba(0, 0, 0, 0.1);"; ">"];
      String.concat dquote ["                <h1 style="; "color: #333333; font-size: 24px; font-weight: bold; margin-bottom: 20px;"; ">Verify Your Email Address</h1>"];
      String.concat dquote ["                <p style="; "color: #666666; font-size: 16px; margin-bottom: 30px;"; ">Thank you for signing up for CivicCircle! To complete your registration, please verify your email address by clicking the button below:</p>"];
      String.concat dquote ["                <a href="; EmptyString] ].

(** The rest of the template, after [${url}]. *)
Definition page_tail : string :=
  String.concat newline
    [ String.concat dquote [EmptyString; " style="; "display: inline-block; background-color: #007bff; color: #ffffff; text-decoration: none; padding: 12px 24px; border-radius: 4px; font-size: 16px; font-weight: bold;"; ">Verify Email Address</a>"];
      String.concat dquote ["                <p style="; "color: #666666; font-size: 14px; margin-top: 30px;"; ">If you did not sign up for an account on CivicCircle, you can safely ignore this email.</p>"];
      "            </div>";
      "        </div>";
      "    </body>";
      "    </html>" ].

(** [emailVerification(url)] *)
Definition emailVerification (url : string) : string :=
  String.append page_head (String.append url page_tail).

End AuthenticationModel.

(** ** Nested path resolution *)

Module Resolve.
Import FirestoreModel.

(** The specification's reading of a nested path: (document id,
    sub-collection name) pairs, from root to leaf; a last unpaired segment is
    not part of any pair. *)
Fixpoint pairs (segments : list string) : list (string * string) :=
  match segments with
  | d :: c :: rest => (d, c) :: pairs rest
  | _ => []
  end.

Fixpoint flatten (ps : list (string * string)) : list string :=
  match ps with
  | [] => []
  | (d, c) :: rest => d :: c :: flatten rest
  end.

(** One descent: into document [d], then into its sub-collection [c]. *)
Definition descend_pair (r : outcome reference) (p : string * string)
  : outcome reference :=
  obind r (fun r0 =>
  obind (doc r0 (VStr (fst p))) (fun r1 =>
  collection r1 (snd p))).

(** Descending the pairs one after the other, in order. *)
Definition descend_pairs (r : reference) (ps : list (string * string))
  : outcome reference :=
  fold_left descend_pair ps (Resolved r).

(** The identifier of the target document: the given [uid] when it is
    truthy, the next generated identifier otherwise. *)
Definition auto_target (this : Firestore) (s : platform) : path :=
  collectionName this :: nestedPaths this ++ [idgen s (next s)].

Definition drawn (s : platform) : platform :=
  mkPlatform (docs s) (nodes s) (faults s) (idgen s) (S (next s)).

(** The state [create] leaves behind on an even path when no call fails. *)
Definition created (this : Firestore) (s : platform) (data : value) : platform :=
  with_docs (put (auto_target this s) data (docs s)) (drawn s).

End Resolve.

(** ** The public methods, as one type of calls *)

Module Wrappers.

Inductive call : Type :=
| RealTime_create (this : RealTimeModel.RealTime) (data : value)
| RealTime_read (this : RealTimeModel.RealTime)
| RealTime_update (this : RealTimeModel.RealTime) (id : string) (newData : value)
| RealTime_delete (this : RealTimeModel.RealTime) (id : string)
| Firestore_create (this : FirestoreModel.Firestore) (data : value)
| Firestore_read (this : FirestoreModel.Firestore)
| Firestore_update (this : FirestoreModel.Firestore) (data : value)
| Firestore_delete (this : FirestoreModel.Firestore)
| Firestore_readPaths (this : FirestoreModel.Firestore)
| Firestore_readAll (this : FirestoreModel.Firestore)
| Authentication_createUser (this : AuthenticationModel.Authentication) (userData : value)
| Authentication_verificationEmail (this : AuthenticationModel.Authentication) (email : value)
| Authentication_loginUser (this : AuthenticationModel.Authentication) (email password : value)
| Authentication_updateUser (this : AuthenticationModel.Authentication) (uid updateUserData : value)
| Authentication_getUser (this : AuthenticationModel.Authentication) (uid : value)
| Authentication_deleteUser (this : AuthenticationModel.Authentication) (uid : value)
| Authentication_createPhoneVerification (this : AuthenticationModel.Authentication) (phoneNumber : value)
| Authentication_verifyPhoneVerification (this : AuthenticationModel.Authentication) (verificationId otp : value)
| Authentication_resetPassword (this : AuthenticationModel.Authentication) (email : value)
| Authentication_getUsers (this : AuthenticationModel.Authentication).

(** Running a call: what the caller gets back, and the platform afterwards. *)
Definition invoke (c : call) : Async value :=
  match c with
  | RealTime_create this data => RealTimeModel.create this data
  | RealTime_read this => RealTimeModel.read this
  | RealTime_update this id newData => RealTimeModel.update this id newData
  | RealTime_delete this id => RealTimeModel.delete this id
  | Firestore_create this data => FirestoreModel.create this data
  | Firestore_read this => FirestoreModel.read this
  | Firestore_update this data => FirestoreModel.update this data
  | Firestore_delete this => FirestoreModel.delete this
  | Firestore_readPaths this => FirestoreModel.readPaths this
  | Firestore_readAll this => FirestoreModel.readAll this
  | Authentication_createUser this userData =>
      lift (AuthenticationModel.createUser this userData)
  | Authentication_verificationEmail this email =>
      lift (AuthenticationModel.verificationEmail this email)
  | Authentication_loginUser this email password =>
      lift (AuthenticationModel.loginUser this email password)
  | Authentication_updateUser this uid updateUserData =>
      lift (AuthenticationModel.updateUser this uid updateUserData)
  | Authentication_getUser this uid =>
      lift (AuthenticationModel.getUser this uid)
  | Authentication_deleteUser this uid =>
      lift (AuthenticationModel.deleteUser this uid)
  | Authentication_createPhoneVerification this phoneNumber =>
      lift (AuthenticationModel.createPhoneVerification this phoneNumber)
  | Authentication_verifyPhoneVerification this verificationId otp =>
      lift (AuthenticationModel.verifyPhoneVerification this verificationId otp)
  | Authentication_resetPassword this email =>
      lift (AuthenticationModel.resetPassword this email)
  | Authentication_getUsers this =>
      lift (AuthenticationModel.getUsers this)
  end.

(** The methods that build their result as [[flag, payload]] on every
    return path and can reach one ([readPaths] and [readAll] are left out:
    they never return). *)
Definition builds_pair (c : call) : bool :=
  match c with
  | RealTime_create _ _ | RealTime_read _ | RealTime_update _ _ _
  | RealTime_delete _ _ => true
  | Firestore_create _ _ | Firestore_read _ | Firestore_update _ _
  | Firestore_delete _ => true
  | Authentication_createUser _ _ | Authentication_loginUser _ _ _
  | Authentication_updateUser _ _ _ | Authentication_getUser _ _
  | Authentication_deleteUser _ _ => true
  | _ => false
  end.

(** The methods whose body is wrapped in [try]/[catch]. *)
Definition catches (c : call) : bool :=
  match c with
  | RealTime_create _ _ | RealTime_read _ | RealTime_update _ _ _
  | RealTime_delete _ _ => true
  | Authentication_createUser _ _ | Authentication_loginUser _ _ _
  | Authentication_updateUser _ _ _ | Authentication_getUser _ _
  | Authentication_deleteUser _ _ | Authentication_createPhoneVerification _ _
  | Authentication_verifyPhoneVerification _ _ _ | Authentication_resetPassword _ _
  | Authentication_getUsers _ => true
  | _ => false
  end.

Definition is_firestore (c : call) : bool :=
  match c with
  | Firestore_create _ _ | Firestore_read _ | Firestore_update _ _
  | Firestore_delete _ | Firestore_readPaths _ | Firestore_readAll _ => true
  | _ => false
  end.

(** The first call a method of [Authentication] makes on its collaborator,
    with its outcome. *)
Definition service_call (c : call) : option (outcome value) :=
  match c with
  | Authentication_createUser this userData =>
      Some (AuthenticationModel.auth_createUser this userData)
  | Authentication_verificationEmail this email =>
      Some (AuthenticationModel.auth_generateEmailVerificationLink this email)
  | Authentication_loginUser this email password =>
      Some (AuthenticationModel.signInWithEmailAndPassword this email password)
  | Authentication_updateUser this uid updateUserData =>
      Some (AuthenticationModel.auth_updateUser this uid updateUserData)
  | Authentication_getUser this uid =>
      Some (AuthenticationModel.auth_getUser this uid)
  | Authentication_deleteUser this uid =>
      Some (AuthenticationModel.auth_deleteUser this uid)
  | Authentication_createPhoneVerification this phoneNumber =>
      Some (AuthenticationModel.auth_createSessionCookie this phoneNumber
              (VObj [("expiresIn", VNum 3600)]))
  | Authentication_verifyPhoneVerification this verificationId otp =>
      Some (AuthenticationModel.auth_verifySessionCookie this verificationId otp)
  | Authentication_resetPassword this email =>
      Some (AuthenticationModel.auth_sendPasswordResetEmail this email)
  | Authentication_getUsers this =>
      Some (AuthenticationModel.auth_listUsers this)
  | _ => None
  end.

(** A value that is a two-element array [[flag, payload]]. *)
Definition two_element (v : value) : Prop :=
  exists flag payload, v = pair_result flag payload.

(** The collaborator throws objects, never [undefined] or [null]. *)
Definition throws_object (o : outcome value) : Prop :=
  match o with
  | Resolved _ => True
  | Rejected e => nullish e = false
  end.

Definition planned_objects (s : platform) : Prop :=
  Forall (fun f => match f with Some e => nullish e = false | None => True end)
         (faults s).

Definition service_throws_objects (this : AuthenticationModel.Authentication) : Prop :=
  (forall a, throws_object (AuthenticationModel.auth_createUser this a))
  /\ (forall a b, throws_object (AuthenticationModel.signInWithEmailAndPassword this a b))
  /\ (forall a b, throws_object (AuthenticationModel.auth_updateUser this a b))
  /\ (forall a, throws_object (AuthenticationModel.toJSON this a))
  /\ (forall a, throws_object (AuthenticationModel.auth_getUser this a))
  /\ (forall a, throws_object (AuthenticationModel.auth_deleteUser this a))
  /\ (forall a b, throws_object (AuthenticationModel.auth_createSessionCookie this a b))
  /\ (forall a b, throws_object (AuthenticationModel.auth_verifySessionCookie this a b))
  /\ (forall a, throws_object (AuthenticationModel.auth_sendPasswordResetEmail this a))
  /\ throws_object (AuthenticationModel.auth_listUsers this).

Definition collaborator_throws_objects (c : call) (s : platform) : Prop :=
  match c with
  | RealTime_create _ _ | RealTime_read _ | RealTime_update _ _ _
  | RealTime_delete _ _ => planned_objects s
  | Firestore_create _ _ | Firestore_read _ | Firestore_update _ _
  | Firestore_delete _ | Firestore_readPaths _ | Firestore_readAll _ =>
      planned_objects s
  | Authentication_createUser this _ | Authentication_verificationEmail this _
  | Authentication_loginUser this _ _ | Authentication_updateUser this _ _
  | Authentication_getUser this _ | Authentication_deleteUser this _
  | Authentication_createPhoneVerification this _
  | Authentication_verifyPhoneVerification this _ _
  | Authentication_resetPassword this _ | Authentication_getUsers this =>
      service_throws_objects this
  end.

(** [collaborator_throws c s e]: during the call [c], started in state [s],
    the collaborator raises [e] (the service call of an [Authentication]
    method throws; the remote round trip of a [RealTime] or [Firestore]
    method, once reached, fails as planned). *)
Inductive collaborator_throws : call -> platform -> value -> Prop :=
| service_throws (c : call) (s : platform) (e : value) :
    service_call c = Some (Rejected e) ->
    collaborator_throws c s e
| realtime_create_throws this data values s e rest :
    Object_values data = Resolved values ->
    existsb is_undefined values = false ->
    faults s = Some e :: rest ->
    collaborator_throws (RealTime_create this data) s e
| realtime_read_throws this s e rest :
    faults s = Some e :: rest ->
    collaborator_throws (RealTime_read this) s e
| realtime_update_throws this id newData s e rest :
    faults s = Some e :: rest ->
    collaborator_throws (RealTime_update this id newData) s e
| realtime_delete_throws this id s e rest :
    faults s = Some e :: rest ->
    collaborator_throws (RealTime_delete this id) s e
| firestore_create_throws this data s e rest :
    Nat.even (length (FirestoreModel.nestedPaths this)) = true ->
    faults s = Some e :: rest ->
    collaborator_throws (Firestore_create this data) s e
| firestore_read_throws this id s e rest :
    FirestoreModel.uid this = VStr id -> id <> "" ->
    Nat.even (length (FirestoreModel.nestedPaths this)) = true ->
    faults s = Some e :: rest ->
    collaborator_throws (Firestore_read this) s e
| firestore_update_throws this data id s e rest :
    FirestoreModel.uid this = VStr id -> id <> "" ->
    Nat.even (length (FirestoreModel.nestedPaths this)) = true ->
    faults s = Some e :: rest ->
    collaborator_throws (Firestore_update this data) s e
| firestore_update_missing this data id s :
    FirestoreModel.uid this = VStr id -> id <> "" ->
    Nat.even (length (FirestoreModel.nestedPaths this)) = true ->
    faults s = [] ->
    lookup (FirestoreModel.collectionName this :: FirestoreModel.nestedPaths this ++ [id])
           (docs s) = None ->
    collaborator_throws (Firestore_update this data) s
                        (Error "NOT_FOUND: No document to update")
| firestore_delete_throws this id s e rest :
    FirestoreModel.uid this = VStr id -> id <> "" ->
    Nat.even (length (FirestoreModel.nestedPaths this)) = true ->
    faults s = Some e :: rest ->
    collaborator_throws (Firestore_delete this) s e.

(** [succeeds c s payload]: every collaborator call of [c] succeeds and
    yields what [payload] is built from. *)
Inductive succeeds : call -> platform -> value -> Prop :=
| realtime_create_ok this data values s :
    Object_values data = Resolved values ->
    existsb is_undefined values = false ->
    faults s = [] ->
    succeeds (RealTime_create this data) s (VStr (idgen s (next s)))
| realtime_read_ok this s :
    faults s = [] ->
    succeeds (RealTime_read this) s
      (VArr (map RealTimeModel.item (children (RealTimeModel.itemsRef this) (nodes s))))
| realtime_update_ok this id newData s :
    faults s = [] ->
    succeeds (RealTime_update this id newData) s (VBool true)
| realtime_delete_ok this id s :
    faults s = [] ->
    succeeds (RealTime_delete this id) s (VBool true)
| firestore_create_ok this data s :
    Nat.even (length (FirestoreModel.nestedPaths this)) = true ->
    faults s = [] ->
    succeeds (Firestore_create this data) s
      (FirestoreModel.id_value
         (FirestoreModel.first_match data
            (children (FirestoreModel.collectionName this :: FirestoreModel.nestedPaths this)
               (put (FirestoreModel.collectionName this
                       :: FirestoreModel.nestedPaths this ++ [idgen s (next s)])
                    data (docs s)))))
| firestore_read_ok this id stored s :
    FirestoreModel.uid this = VStr id -> id <> "" ->
    Nat.even (length (FirestoreModel.nestedPaths this)) = true ->
    faults s = [] ->
    lookup (FirestoreModel.collectionName this :: FirestoreModel.nestedPaths this ++ [id])
           (docs s) = Some stored ->
    succeeds (Firestore_read this) s stored
| firestore_update_ok this data id old s :
    FirestoreModel.uid this = VStr id -> id <> "" ->
    Nat.even (length (FirestoreModel.nestedPaths this)) = true ->
    faults s = [] ->
    lookup (FirestoreModel.collectionName this :: FirestoreModel.nestedPaths this ++ [id])
           (docs s) = Some old ->
    succeeds (Firestore_update this data) s VNaN
| firestore_delete_ok this id s :
    FirestoreModel.uid this = VStr id -> id <> "" ->
    Nat.even (length (FirestoreModel.nestedPaths this)) = true ->
    faults s = [] ->
    succeeds (Firestore_delete this) s VNaN
| createUser_ok this userData userRecord u s :
    AuthenticationModel.auth_createUser this userData = Resolved userRecord ->
    get_prop userRecord "uid" = Resolved u ->
    succeeds (Authentication_createUser this userData) s u
| loginUser_ok this email password userRecord user u s :
    AuthenticationModel.signInWithEmailAndPassword this email password
    = Resolved userRecord ->
    get_prop userRecord "user" = Resolved user ->
    get_prop user "uid" = Resolved u ->
    succeeds (Authentication_loginUser this email password) s u
| updateUser_ok this uid updateUserData userRecord json s :
    AuthenticationModel.auth_updateUser this uid updateUserData = Resolved userRecord ->
    AuthenticationModel.call_toJSON this userRecord = Resolved json ->
    succeeds (Authentication_updateUser this uid updateUserData) s json
| getUser_ok this uid user s :
    AuthenticationModel.auth_getUser this uid = Resolved user ->
    succeeds (Authentication_getUser this uid) s user
| deleteUser_ok this uid done s :
    AuthenticationModel.auth_deleteUser this uid = Resolved done ->
    succeeds (Authentication_deleteUser this uid) s uid.

(** [fails c s message]: the call runs into a failure the method reports,
    with the message it reports. *)
Inductive fails : call -> platform -> value -> Prop :=
| thrown_and_caught c s e m :
    catches c = true ->
    collaborator_throws c s e ->
    get_prop e "message" = Resolved m ->
    fails c s m
| realtime_create_undefined this data values s :
    Object_values data = Resolved values ->
    existsb is_undefined values = true ->
    fails (RealTime_create this data) s (VStr "Data contains undefined values")
| firestore_read_missing this id s :
    FirestoreModel.uid this = VStr id -> id <> "" ->
    Nat.even (length (FirestoreModel.nestedPaths this)) = true ->
    faults s = [] ->
    lookup (FirestoreModel.collectionName this :: FirestoreModel.nestedPaths this ++ [id])
           (docs s) = None ->
    fails (Firestore_read this) s (VStr "Document does not exist").

(** A collaborator for examples: every call succeeds with a fixed answer. *)
Definition sample_service : AuthenticationModel.Authentication :=
  AuthenticationModel.mkAuthentication
    (fun _ => Resolved (VObj [("uid", VStr "u1")]))
    (fun _ => Resolved (VStr "https://example.test/verify"))
    (fun _ _ => Resolved (VObj [("user", VObj [("uid", VStr "u1")])]))
    (fun _ _ => Resolved (VObj [("uid", VStr "u1")]))
    (fun r => Resolved r)
    (fun _ => Resolved (VObj [("uid", VStr "u1")]))
    (fun _ => Resolved VUndefined)
    (fun _ _ => Resolved (VStr "cookie"))
    (fun _ _ => Resolved (VObj [("uid", VStr "u1")]))
    (fun _ => Resolved VUndefined)
    (Resolved (VObj [("users", VArr [VObj [("uid", VStr "u1")]])]))
    (fun _ => Rejected (Error "Firestore is not defined")).

(** A collaborator whose every call throws the same error. *)
Definition failing_service (e : value) : AuthenticationModel.Authentication :=
  AuthenticationModel.mkAuthentication
    (fun _ => Rejected e) (fun _ => Rejected e) (fun _ _ => Rejected e)
    (fun _ _ => Rejected e) (fun _ => Rejected e) (fun _ => Rejected e)
    (fun _ => Rejected e) (fun _ _ => Rejected e) (fun _ _ => Rejected e)
    (fun _ => Rejected e) (Rejected e) (fun _ => Rejected e).

Definition empty_platform : platform :=
  mkPlatform [] [] [] (fun _ => "k1") 0.

Definition is_realtime (c : call) : bool :=
  match c with
  | RealTime_create _ _ | RealTime_read _ | RealTime_update _ _ _
  | RealTime_delete _ _ => true
  | _ => false
  end.

End Wrappers.

(** ** Inputs the platform takes as they are

    The store of [Module Platform] keeps what it is given.  The platform
    itself is stricter: the realtime database stores nothing for [null] and
    for empty objects and refuses some keys, Firestore reads a dotted key of
    a patch as a path into nested fields, and a reference splits an
    identifier at every slash.  The predicates below single out the inputs
    on which none of this comes into play. *)

Module Domain.

Fixpoint all_chars (f : Ascii.ascii -> bool) (s : string) : bool :=
  match s with
  | EmptyString => true
  | String c rest => f c && all_chars f rest
  end.

Fixpoint distinct (keys : list string) : bool :=
  match keys with
  | [] => true
  | k :: rest => negb (existsb (String.eqb k) rest) && distinct rest
  end.

Definition code_in (codes : list nat) (c : Ascii.ascii) : bool :=
  existsb (Nat.eqb (Ascii.nat_of_ascii c)) codes.



(** A value Firestore stores as written: [null], booleans, numbers, strings
    and objects of such values under non-empty, distinct keys. *)
Fixpoint firestore_storable (v : value) : bool :=
  match v with
  | VNull | VBool _ | VNum _ | VStr _ => true
  | VObj fields =>
      distinct (map fst fields)
      && (fix all_fields (l : list (string * value)) : bool :=
            match l with
            | [] => true
            | (k, x) :: rest =>
                negb (String.eqb k "") && firestore_storable x && all_fields rest
            end) fields
  | _ => false
  end.

(** A key of a patch that names one top-level field: not empty, not
    reserved (two leading underscores), and without any of [. ~ * / [ ]],
    so that it is not read as a path. *)
Definition plain_field (k : string) : bool :=
  negb (String.eqb k "")
  && negb (String.prefix "__" k)
  && all_chars (fun c => negb (code_in [46; 126; 42; 47; 91; 93] c)) k.

(** A patch [update] applies field by field: at least one field, plain and
    distinct keys, storable values. *)
Definition valid_patch (patch : list (string * value)) : bool :=
  match patch with [] => false | _ => true end
  && distinct (map fst patch)
  && forallb (fun kv => plain_field (fst kv) && firestore_storable (snd kv)) patch.

(** An identifier that is one segment of a document path: not empty and
    without a slash. *)
Definition plain_id (id : string) : bool :=
  negb (String.eqb id "") && all_chars (fun c => negb (code_in [47] c)) id.

(** [ref.path]: the segments joined by slashes. *)
Definition path_string (p : path) : string := String.concat "/" p.

End Domain.

(** * Lemmas and theorems *)

(** ** Structural equality of values *)

Lemma value_eqb_refl (v : value) : value_eqb v v = true.
Proof.
  induction v using value_ind'; simpl; auto.
  - apply Bool.eqb_reflx.
  - apply Z.eqb_refl.
  - apply String.eqb_refl.
  - induction H as [|[k x] t Hx Ht IH]; auto.
    simpl in Hx. rewrite String.eqb_refl, Hx, IH. reflexivity.
  - induction H as [|x t Hx Ht IH]; auto.
    rewrite Hx, IH. reflexivity.
Qed.

Lemma value_eqb_eq (a b : value) : value_eqb a b = true -> a = b.
Proof.
  revert b.
  induction a using value_ind'; intros w Hab; destruct w; simpl in Hab;
    try discriminate; auto.
  - apply Bool.eqb_prop in Hab. congruence.
  - apply Z.eqb_eq in Hab. congruence.
  - apply String.eqb_eq in Hab. congruence.
  - f_equal. rename fields0 into other. revert other Hab.
    induction H as [|[k x] t Hx Ht IH]; intros [|[k' x'] t'] Hab;
      try discriminate; auto.
    apply andb_true_iff in Hab as [Hab Htl].
    apply andb_true_iff in Hab as [Hk Hv].
    apply String.eqb_eq in Hk. simpl in Hx. apply Hx in Hv.
    apply IH in Htl. congruence.
  - f_equal. rename items0 into other. revert other Hab.
    induction H as [|x t Hx Ht IH]; intros [|x' t'] Hab;
      try discriminate; auto.
    apply andb_true_iff in Hab as [Hv Htl].
    apply Hx in Hv. apply IH in Htl. congruence.
Qed.

Lemma value_eqb_iff (a b : value) : value_eqb a b = true <-> a = b.
Proof.
  split; [apply value_eqb_eq | intros ->; apply value_eqb_refl].
Qed.

(** ** Facts about the path-keyed store *)

Section StoreFacts.

Lemma lookup_put_same (p : path) (v : value) (l : entries) :
  lookup p (put p v l) = Some v.
Proof.
  induction l as [|[q w] rest IH]; simpl.
  - destruct (path_eq_dec p p); congruence.
  - destruct (path_eq_dec p q) as [Heq|Hne]; simpl.
    + destruct (path_eq_dec p p); congruence.
    + destruct (path_eq_dec p q); congruence.
Qed.

Lemma lookup_put_other (p q : path) (v : value) (l : entries) :
  q <> p -> lookup q (put p v l) = lookup q l.
Proof.
  intros Hne.
  induction l as [|[r w] rest IH]; simpl.
  - destruct (path_eq_dec q p); congruence.
  - destruct (path_eq_dec p r) as [Heq|Hpr]; simpl.
    + subst r. destruct (path_eq_dec q p); congruence.
    + destruct (path_eq_dec q r); congruence.
Qed.

Lemma lookup_erase_same (p : path) (l : entries) :
  lookup p (erase p l) = None.
Proof.
  induction l as [|[q w] rest IH]; simpl; auto.
  destruct (path_eq_dec p q) as [Heq|Hne]; simpl; auto.
  destruct (path_eq_dec p q); congruence.
Qed.

Lemma in_put (p : path) (v : value) (l : entries) : In (p, v) (put p v l).
Proof.
  induction l as [|[q w] rest IH]; simpl; auto.
  destruct (path_eq_dec p q); simpl; auto.
Qed.

Lemma keys_put (p : path) (v : value) (l : entries) (q : path) :
  In q (map fst (put p v l)) -> q = p \/ In q (map fst l).
Proof.
  induction l as [|[r w] rest IH]; simpl.
  - intros [H|[]]; auto.
  - destruct (path_eq_dec p r) as [Heq|Hne]; simpl.
    + intros [H|H]; auto.
    + intros [H|H]; auto. destruct (IH H); auto.
Qed.

Lemma put_unique_keys (p : path) (v : value) (l : entries) :
  NoDup (map fst l) -> NoDup (map fst (put p v l)).
Proof.
  induction l as [|[r w] rest IH]; simpl; intros Hnd.
  - constructor; [intros [] | constructor].
  - inversion Hnd as [|? ? Hnotin Hrest]; subst.
    destruct (path_eq_dec p r) as [Heq|Hne]; simpl.
    + subst r. constructor; assumption.
    + constructor; [|auto].
      intros Hin. apply keys_put in Hin as [Hin|Hin]; congruence.
Qed.

Lemma lookup_in (p : path) (v : value) (l : entries) :
  NoDup (map fst l) -> In (p, v) l -> lookup p l = Some v.
Proof.
  induction l as [|[q w] rest IH]; simpl; intros Hnd Hin; [contradiction|].
  inversion Hnd as [|? ? Hnotin Hrest]; subst.
  destruct Hin as [Heq|Hin].
  - inversion Heq; subst. destruct (path_eq_dec p p); congruence.
  - destruct (path_eq_dec p q) as [Heq|Hne]; auto.
    subst q. exfalso. apply Hnotin.
    change p with (fst (p, v)). apply in_map. exact Hin.
Qed.

Lemma child_id_spec (parent q : path) (id : string) :
  child_id parent q = Some id <-> q = parent ++ [id].
Proof.
  revert q. induction parent as [|a parent IH]; intros q; simpl.
  - destruct q as [|b [|c q]]; split; intros H; try discriminate; congruence.
  - destruct q as [|b q]; [split; intros H; discriminate|].
    destruct (string_dec a b) as [Heq|Hne].
    + subst b. rewrite IH. split; intros H; congruence.
    + split; intros H; [discriminate | congruence].
Qed.

Lemma children_in (parent : path) (id : string) (v : value) (l : entries) :
  In (id, v) (children parent l) <-> In (parent ++ [id], v) l.
Proof.
  induction l as [|[q w] rest IH]; simpl; [tauto|].
  destruct (child_id parent q) as [id'|] eqn:Hc; simpl.
  - apply child_id_spec in Hc. subst q. rewrite IH. split.
    + intros [H|H]; [left | right; exact H].
      inversion H; subst. reflexivity.
    + intros [H|H]; [left | right; exact H].
      inversion H as [[Hp Hv]]. apply app_inv_head in Hp.
      inversion Hp; subst. reflexivity.
  - rewrite IH. split; [auto|].
    intros [H|H]; auto. inversion H; subst.
    assert (Hs : child_id parent (parent ++ [id]) = Some id)
      by (apply child_id_spec; reflexivity).
    congruence.
Qed.

Lemma removelast_snoc (p : path) (id : string) : removelast (p ++ [id]) = p.
Proof. apply removelast_last. Qed.

End StoreFacts.

(** ** Facts about the lookup by content *)

Section FirstMatch.
Import FirestoreModel.

Lemma first_match_found (record : value) (l : list (string * value)) (id : string) :
  In (id, record) l -> exists id', first_match record l = Some id'.
Proof.
  induction l as [|[i stored] rest IH]; simpl; [contradiction|].
  intros Hin. destruct (value_eqb stored record) eqn:He; eauto.
  destruct Hin as [Heq|Hin]; auto.
  inversion Heq; subst. rewrite value_eqb_refl in He. discriminate.
Qed.

(** The result is the first entry, in order, whose content equals the
    record. *)
Lemma first_match_first (record : value) (l : list (string * value)) (id : string) :
  first_match record l = Some id <->
  exists before after,
    l = before ++ (id, record) :: after /\
    Forall (fun kv => snd kv <> record) before.
Proof.
  split.
  - induction l as [|[i stored] rest IH]; simpl; [discriminate|].
    destruct (value_eqb stored record) eqn:He.
    + intros H. inversion H; subst. apply value_eqb_eq in He. subst stored.
      exists [], rest. split; [reflexivity | constructor].
    + intros H. destruct (IH H) as (before & after & -> & Hall).
      exists ((i, stored) :: before), after. split; [reflexivity|].
      constructor; [|exact Hall]. simpl. intros ->.
      rewrite value_eqb_refl in He. discriminate.
  - intros (before & after & -> & Hall).
    induction before as [|[i stored] before IH]; simpl.
    + rewrite value_eqb_refl. reflexivity.
    + inversion Hall as [|? ? Hne Hrest]; subst. simpl in Hne.
      destruct (value_eqb stored record) eqn:He.
      * apply value_eqb_eq in He. contradiction.
      * apply IH. exact Hrest.
Qed.

End FirstMatch.

(** ** Facts about the descent *)

Section Descent.
Import FirestoreModel Resolve.

Lemma list_pair_ind (P : list string -> Prop) :
  P [] -> (forall d, P [d]) -> (forall d c rest, P rest -> P (d :: c :: rest)) ->
  forall l, P l.
Proof.
  intros H0 H1 H2.
  fix IH 1.
  intros [|d [|c rest]]; [exact H0 | exact (H1 d) | exact (H2 d c rest (IH rest))].
Qed.

Lemma even_length_step (d c : string) (rest : list string) :
  Nat.even (length (d :: c :: rest)) = Nat.even (length rest).
Proof. reflexivity. Qed.

Lemma descend_pairs_path (p : path) (ps : list (string * string)) :
  descend_pairs (CollectionReference p) ps
  = Resolved (CollectionReference (p ++ flatten ps)).
Proof.
  unfold descend_pairs. revert p.
  induction ps as [|[d c] ps IH]; intros p; simpl.
  - rewrite app_nil_r. reflexivity.
  - rewrite IH. rewrite <- !app_assoc. reflexivity.
Qed.

Lemma descend_even (p : path) (segments : list string) :
  Nat.even (length segments) = true ->
  descend (CollectionReference p) segments
  = Resolved (CollectionReference (p ++ segments)).
Proof.
  revert p. induction segments as [| d | d c rest IH] using list_pair_ind;
    intros p Hev.
  - simpl. rewrite app_nil_r. reflexivity.
  - discriminate.
  - rewrite even_length_step in Hev. simpl. rewrite (IH _ Hev).
    rewrite <- !app_assoc. reflexivity.
Qed.

Lemma descend_odd (p : path) (segments : list string) :
  Nat.even (length segments) = false ->
  descend (CollectionReference p) segments
  = Resolved (DocumentReference (p ++ segments)).
Proof.
  revert p. induction segments as [| d | d c rest IH] using list_pair_ind;
    intros p Hev.
  - discriminate.
  - reflexivity.
  - rewrite even_length_step in Hev. simpl. rewrite (IH _ Hev).
    rewrite <- !app_assoc. reflexivity.
Qed.

Lemma pairs_even (segments : list string) :
  Nat.even (length segments) = true ->
  flatten (pairs segments) = segments /\
  length (pairs segments) = length segments / 2.
Proof.
  induction segments as [| d | d c rest IH] using list_pair_ind; intros Hev.
  - split; reflexivity.
  - discriminate.
  - rewrite even_length_step in Hev. destruct (IH Hev) as [Hf Hl].
    split; [simpl; congruence|].
    change (length (d :: c :: rest)) with (2 + length rest).
    change (length (pairs (d :: c :: rest))) with (S (length (pairs rest))).
    rewrite Hl.
    replace (2 + length rest) with (length rest + 1 * 2) by lia.
    rewrite Nat.div_add by lia. lia.
Qed.

Lemma pairs_odd (segments : list string) :
  Nat.even (length segments) = false ->
  exists d,
    segments = flatten (pairs segments) ++ [d] /\
    length (pairs segments) = length segments / 2.
Proof.
  induction segments as [| d | d c rest IH] using list_pair_ind; intros Hev.
  - discriminate.
  - exists d. split; reflexivity.
  - rewrite even_length_step in Hev. destruct (IH Hev) as (x & Hf & Hl).
    exists x. split; [simpl; congruence|].
    change (length (d :: c :: rest)) with (2 + length rest).
    change (length (pairs (d :: c :: rest))) with (S (length (pairs rest))).
    rewrite Hl.
    replace (2 + length rest) with (length rest + 1 * 2) by lia.
    rewrite Nat.div_add by lia. lia.
Qed.

End Descent.

(** ** What [getNestedCollectionReference] returns *)

Section Resolution.
Import FirestoreModel Resolve.

Variable this : Firestore.
Variable s : platform.

Lemma resolve_auto_even (u : value) :
  Nat.even (length (nestedPaths this)) = true ->
  truthy u = false ->
  getNestedCollectionReference this u s
  = (Resolved (DocumentReference (auto_target this s)), drawn s).
Proof.
  intros Hev Hu. unfold getNestedCollectionReference, bind, lift, this_collection,
    firestore_collection.
  rewrite (descend_even _ _ Hev), Hu. reflexivity.
Qed.

Lemma resolve_id_even (id : string) :
  Nat.even (length (nestedPaths this)) = true ->
  id <> "" ->
  getNestedCollectionReference this (VStr id) s
  = (Resolved (DocumentReference (collectionName this :: nestedPaths this ++ [id])), s).
Proof.
  intros Hev Hid. unfold getNestedCollectionReference, bind, lift, this_collection,
    firestore_collection.
  rewrite (descend_even _ _ Hev). simpl.
  destruct (String.eqb_spec id ""); [contradiction|]. reflexivity.
Qed.

(** After an odd-length path the loop leaves a document reference, which
    has no [doc] method: the last line of the function throws. *)
Lemma resolve_odd (u : value) :
  Nat.even (length (nestedPaths this)) = false ->
  getNestedCollectionReference this u s
  = (Rejected (TypeError "doc is not a function"), s).
Proof.
  intros Hodd. unfold getNestedCollectionReference, bind, lift, this_collection,
    firestore_collection.
  rewrite (descend_odd _ _ Hodd). destruct (truthy u); reflexivity.
Qed.

End Resolution.

(** C3. For a nested path of even length, [getNestedCollectionReference]
    descends exactly length/2 (document id, sub-collection name) pairs, in
    order from root to leaf; it then returns a reference to the document
    named by the given uid, or, when no uid is given, a reference with an
    auto-generated document id. *)
Theorem getNestedCollectionReference_even
    (this : FirestoreModel.Firestore) (u : value) (s : platform) :
  Nat.even (length (FirestoreModel.nestedPaths this)) = true ->
  let np := FirestoreModel.nestedPaths this in
  let root := FirestoreModel.this_collection this in
  length (Resolve.pairs np) = length np / 2
  /\ Resolve.flatten (Resolve.pairs np) = np
  /\ FirestoreModel.descend root np = Resolve.descend_pairs root (Resolve.pairs np)
  /\ (forall id, u = VStr id -> id <> "" ->
        FirestoreModel.getNestedCollectionReference this u s
        = (Resolved (DocumentReference
                       (FirestoreModel.collectionName this :: np ++ [id])), s))
  /\ (nullish u = true ->
        FirestoreModel.getNestedCollectionReference this u s
        = (Resolved (DocumentReference
                       (FirestoreModel.collectionName this :: np ++ [idgen s (next s)])),
           Resolve.drawn s)).
Proof.
  intros Hev np root.
  destruct (pairs_even np Hev) as [Hflat Hlen].
  repeat split.
  - exact Hlen.
  - exact Hflat.
  - unfold root, FirestoreModel.this_collection, firestore_collection.
    rewrite descend_pairs_path, Hflat. apply descend_even, Hev.
  - intros id -> Hid. apply resolve_id_even; assumption.
  - intros Hu. apply resolve_auto_even; [exact Hev|].
    destruct u; simpl in Hu; try discriminate; reflexivity.
Qed.

Lemma getNestedCollectionReference_even_witness :
  let this := FirestoreModel.mkFirestore "users" (VStr "order1") ["userA"; "orders"] in
  let s := mkPlatform [] [] [] (fun _ => "auto") 0 in
  Nat.even (length (FirestoreModel.nestedPaths this)) = true
  /\ FirestoreModel.getNestedCollectionReference this (VStr "order1") s
     = (Resolved (DocumentReference ["users"; "userA"; "orders"; "order1"]), s).
Proof.
  intros this s. split; [reflexivity|].
  apply (getNestedCollectionReference_even this (VStr "order1") s);
    [reflexivity | reflexivity | discriminate].
Defined.

(** The two scenarios of the specification. *)
Example scenario_nested_path :
  fst (FirestoreModel.getNestedCollectionReference
         (FirestoreModel.mkFirestore "users" (VStr "order1") ["userA"; "orders"])
         (VStr "order1") Wrappers.empty_platform)
  = Resolved (DocumentReference ["users"; "userA"; "orders"; "order1"]).
Proof. reflexivity. Qed.

Example scenario_empty_path :
  fst (FirestoreModel.getNestedCollectionReference
         (FirestoreModel.mkFirestore "users" (VStr "doc1") [])
         (VStr "doc1") Wrappers.empty_platform)
  = Resolved (DocumentReference ["users"; "doc1"]).
Proof. reflexivity. Qed.

(** The loop on a nested path of odd length: after descending the complete
    (document id, sub-collection) pairs it descends into the last segment as
    a document id only, and holds a document reference. *)
Theorem descend_odd_terminal (this : FirestoreModel.Firestore) :
  Nat.even (length (FirestoreModel.nestedPaths this)) = false ->
  let np := FirestoreModel.nestedPaths this in
  let root := FirestoreModel.this_collection this in
  exists d,
    np = Resolve.flatten (Resolve.pairs np) ++ [d]
    /\ length (Resolve.pairs np) = length np / 2
    /\ FirestoreModel.descend root np
       = obind (Resolve.descend_pairs root (Resolve.pairs np))
               (fun r => doc r (VStr d))
    /\ FirestoreModel.descend root np
       = Resolved (DocumentReference (FirestoreModel.collectionName this :: np)).
Proof.
  intros Hodd np root.
  destruct (pairs_odd np Hodd) as (d & Hflat & Hlen).
  exists d. repeat split; try assumption.
  - unfold root, FirestoreModel.this_collection, firestore_collection.
    rewrite descend_pairs_path. simpl obind.
    rewrite (descend_odd _ _ Hodd).
    fold np. rewrite <- Hflat. reflexivity.
  - exact (descend_odd [FirestoreModel.collectionName this] np Hodd).
Qed.

Lemma descend_odd_terminal_witness :
  Nat.even (length ["userA"; "orders"; "order1"]) = false
  /\ FirestoreModel.descend (CollectionReference ["users"]) ["userA"; "orders"; "order1"]
     = Resolved (DocumentReference ["users"; "userA"; "orders"; "order1"]).
Proof.
  split; [reflexivity|].
  destruct (descend_odd_terminal
              (FirestoreModel.mkFirestore "users" VNull ["userA"; "orders"; "order1"])
              eq_refl) as (d & _ & _ & _ & H).
  exact H.
Defined.

Lemma odd_length_flatten (ps : list (string * string)) (d : string) :
  Nat.even (length (Resolve.flatten ps ++ [d])) = false.
Proof.
  induction ps as [|[x c] ps IH]; [reflexivity|].
  change (Resolve.flatten ((x, c) :: ps) ++ [d])
    with (x :: c :: (Resolve.flatten ps ++ [d])).
  rewrite even_length_step. exact IH.
Qed.

(** C4. The claim has the final unpaired segment of an odd-length nested
    path treated as a terminal document id.  The loop does descend into it,
    but the function never hands that reference back: its last line calls
    [doc] on what is now a document reference, which has no such method, so
    every call with an odd-length path throws, for [users/userA] with uid
    [order1] as for any other. *)
Theorem getNestedCollectionReference_odd_throws :
  fst (FirestoreModel.getNestedCollectionReference
         (FirestoreModel.mkFirestore "users" (VStr "order1") ["userA"])
         (VStr "order1") Wrappers.empty_platform)
  = Rejected (TypeError "doc is not a function")
  /\ forall (name : string) (uid u : value) (ps : list (string * string))
            (d : string) (s : platform),
      let this := FirestoreModel.mkFirestore name uid (Resolve.flatten ps ++ [d]) in
      FirestoreModel.descend (FirestoreModel.this_collection this)
                             (FirestoreModel.nestedPaths this)
      = Resolved (DocumentReference (name :: Resolve.flatten ps ++ [d]))
      /\ FirestoreModel.getNestedCollectionReference this u s
         = (Rejected (TypeError "doc is not a function"), s).
Proof.
  split; [reflexivity|].
  intros name uid u ps d s this. split.
  - exact (descend_odd [name] (Resolve.flatten ps ++ [d]) (odd_length_flatten ps d)).
  - apply resolve_odd. exact (odd_length_flatten ps d).
Qed.

(** ** The Firestore wrapper on the document store *)

Section FirestoreRuns.
Import FirestoreModel Resolve.

Lemma remote_quiet (s : platform) :
  faults s = [] -> remote s = (Resolved tt, s).
Proof. intros H. unfold remote. rewrite H. reflexivity. Qed.

Lemma remote_fails (s : platform) (e : value) (rest : list (option value)) :
  faults s = Some e :: rest -> remote s = (Rejected e, with_faults rest s).
Proof. intros H. unfold remote. rewrite H. reflexivity. Qed.

Lemma lookup_some_in (p : path) (v : value) (l : entries) :
  lookup p l = Some v -> In (p, v) l.
Proof.
  induction l as [|[q w] rest IH]; simpl; [discriminate|].
  destruct (path_eq_dec p q) as [Heq|Hne]; intros H.
  - left. congruence.
  - right. auto.
Qed.

Variable this : Firestore.
Variable s : platform.

Lemma create_even (data : value) :
  Nat.even (length (nestedPaths this)) = true ->
  faults s = [] ->
  create this data s
  = (Resolved (pair_result true
       (id_value (first_match data
          (children (collectionName this :: nestedPaths this) (docs (created this s data)))))),
     created this s data).
Proof.
  intros Hev Hq. unfold create, bind.
  rewrite (resolve_auto_even this s VNull Hev eq_refl).
  unfold doc_set, bind.
  rewrite (remote_quiet (drawn s)) by exact Hq.
  unfold getDocumentIdByContent, bind.
  rewrite remote_quiet by exact Hq.
  unfold collection_of, auto_target.
  change (collectionName this :: nestedPaths this ++ [idgen s (next s)])
    with ((collectionName this :: nestedPaths this) ++ [idgen s (next s)]).
  rewrite removelast_snoc. reflexivity.
Qed.

Lemma create_odd (data : value) :
  Nat.even (length (nestedPaths this)) = false ->
  create this data s = (Rejected (TypeError "doc is not a function"), s).
Proof.
  intros Hodd. unfold create, bind. rewrite (resolve_odd this s VNull Hodd).
  reflexivity.
Qed.

(** Whatever happens, [create] touches no document other than the one with
    the generated identifier. *)
Lemma create_frame (data : value) (q : path) :
  q <> auto_target this s ->
  lookup q (docs (snd (create this data s))) = lookup q (docs s).
Proof.
  intros Hq.
  destruct (Nat.even (length (nestedPaths this))) eqn:Hev.
  - unfold create, bind.
    rewrite (resolve_auto_even this s VNull Hev eq_refl).
    unfold doc_set, getDocumentIdByContent, bind, remote, ret,
      with_docs, with_faults, drawn. cbn.
    destruct (faults s) as [|[e|] [|[e'|] rest]]; cbn;
      try reflexivity; apply lookup_put_other; exact Hq.
  - rewrite (create_odd data Hev). reflexivity.
Qed.

End FirestoreRuns.

Section FirestoreClaims.
Import FirestoreModel Resolve.

Lemma in_put_inv (p q : path) (v w : value) (l : entries) :
  In (q, w) (put p v l) -> (q = p /\ w = v) \/ In (q, w) l.
Proof.
  induction l as [|[r x] rest IH]; simpl.
  - intros [H|[]]. left. split; congruence.
  - destruct (path_eq_dec p r) as [Heq|Hne]; simpl.
    + intros [H|H]; [left; split; congruence | right; right; exact H].
    + intros [H|H]; [right; left; exact H|].
      destruct (IH H) as [Hl|Hr]; [left; exact Hl | right; right; exact Hr].
Qed.

Lemma read_existing (this : Firestore) (id : string) (stored : value) (s : platform) :
  uid this = VStr id -> id <> "" ->
  Nat.even (length (nestedPaths this)) = true ->
  faults s = [] ->
  lookup (collectionName this :: nestedPaths this ++ [id]) (docs s) = Some stored ->
  read this s = (Resolved (pair_result true stored), s).
Proof.
  intros Hu Hid Hev Hq Hl. unfold read, bind. rewrite Hu.
  rewrite (resolve_id_even this s id Hev Hid).
  unfold ref_get, bind. rewrite (remote_quiet s Hq), Hl. reflexivity.
Qed.

Lemma read_missing (this : Firestore) (id : string) (s : platform) :
  uid this = VStr id -> id <> "" ->
  Nat.even (length (nestedPaths this)) = true ->
  faults s = [] ->
  lookup (collectionName this :: nestedPaths this ++ [id]) (docs s) = None ->
  read this s = (Resolved (pair_result false (VStr "Document does not exist")), s).
Proof.
  intros Hu Hid Hev Hq Hl. unfold read, bind. rewrite Hu.
  rewrite (resolve_id_even this s id Hev Hid).
  unfold ref_get, bind. rewrite (remote_quiet s Hq), Hl. reflexivity.
Qed.

Lemma delete_existing (this : Firestore) (id : string) (s : platform) :
  uid this = VStr id -> id <> "" ->
  Nat.even (length (nestedPaths this)) = true ->
  faults s = [] ->
  delete this s
  = (Resolved (pair_result true VNaN),
     with_docs (erase (collectionName this :: nestedPaths this ++ [id]) (docs s)) s).
Proof.
  intros Hu Hid Hev Hq. unfold delete, bind. rewrite Hu.
  rewrite (resolve_id_even this s id Hev Hid).
  unfold doc_delete, bind. rewrite (remote_quiet s Hq). reflexivity.
Qed.

(** On every instance and in every state [readPaths] fails before any
    document is listed: [getNestedCollectionReference()] hands back a
    document reference, and [listDocuments] is a method of collection
    references. *)
Lemma readPaths_rejects (this : Firestore) (s : platform) :
  exists e s', readPaths this s = (Rejected (TypeError e), s') /\ docs s' = docs s.
Proof.
  destruct (Nat.even (length (nestedPaths this))) eqn:Hev.
  - exists "listDocuments is not a function", (drawn s).
    unfold readPaths, bind.
    rewrite (resolve_auto_even this s VNull Hev eq_refl). split; reflexivity.
  - exists "doc is not a function", s.
    unfold readPaths, bind. rewrite (resolve_odd this s VNull Hev).
    split; reflexivity.
Qed.

End FirestoreClaims.

(** C5. For a record just written to a collection, the lookup by content
    returns the identifier of a document whose stored content is equal, by
    value on all fields, to that record; when several sibling documents hold
    equal content it is the first match in the enumeration order of the
    collection, which need not be the newly created document. *)
Theorem getDocumentIdByContent_first_match :
  (forall (c : path) (newId : string) (record : value) (s : platform),
      faults s = [] ->
      NoDup (map fst (docs s)) ->
      lookup (c ++ [newId]) (docs s) = Some record ->
      exists id before after,
        FirestoreModel.getDocumentIdByContent (DocumentReference (c ++ [newId])) record s
        = (Resolved (Some id), s)
        /\ lookup (c ++ [id]) (docs s) = Some record
        /\ children c (docs s) = before ++ (id, record) :: after
        /\ Forall (fun kv => snd kv <> record) before)
  /\ (exists (this : FirestoreModel.Firestore) (data : value) (s s' : platform),
        FirestoreModel.create this data s
        = (Resolved (pair_result true (VStr "a")), s')
        /\ idgen s (next s) = "b"
        /\ lookup ["users"; "b"] (docs s) = None
        /\ lookup ["users"; "b"] (docs s') = Some data).
Proof.
  split.
  - intros c newId record s Hq Hnd Hl.
    apply lookup_some_in in Hl.
    assert (Hc : In (newId, record) (children c (docs s)))
      by (apply children_in; exact Hl).
    destruct (first_match_found _ _ _ Hc) as [id Hid].
    pose proof Hid as Hfirst.
    apply first_match_first in Hfirst as (before & after & Hsplit & Hall).
    exists id, before, after. repeat split; try assumption.
    + unfold FirestoreModel.getDocumentIdByContent, bind.
      rewrite (remote_quiet s Hq). unfold FirestoreModel.collection_of.
      rewrite removelast_snoc, Hid. reflexivity.
    + apply lookup_in; [exact Hnd|]. apply children_in.
      rewrite Hsplit. apply in_or_app. right. left. reflexivity.
  - exists (FirestoreModel.mkFirestore "users" VNull []),
      (VObj [("name", VStr "Ann")]),
      (mkPlatform [(["users"; "a"], VObj [("name", VStr "Ann")])] [] []
                  (fun _ => "b") 0).
    eexists. repeat split.
Qed.

Lemma getDocumentIdByContent_first_match_witness :
  let s := mkPlatform [(["users"; "a"], VObj [("name", VStr "Ann")]);
                       (["users"; "b"], VObj [("name", VStr "Ann")])] [] []
                      (fun _ => "c") 0 in
  faults s = []
  /\ NoDup (map fst (docs s))
  /\ lookup (["users"] ++ ["b"]) (docs s) = Some (VObj [("name", VStr "Ann")])
  /\ exists id,
       FirestoreModel.getDocumentIdByContent
         (DocumentReference (["users"] ++ ["b"])) (VObj [("name", VStr "Ann")]) s
       = (Resolved (Some id), s).
Proof.
  intros s.
  assert (Hnd : NoDup (map fst (docs s))).
  { simpl. repeat constructor; simpl; intuition discriminate. }
  repeat split; [exact Hnd|].
  destruct (proj1 getDocumentIdByContent_first_match ["users"] "b"
              (VObj [("name", VStr "Ann")]) s eq_refl Hnd eq_refl)
    as (id & _ & _ & H & _).
  exists id. exact H.
Defined.

(** C6. Round trip: for every record, [create(record)] followed by [read()]
    on an instance addressing the identifier [create] returned yields a
    record equal to the one written. *)
Theorem create_then_read
    (this : FirestoreModel.Firestore) (data : value) (s : platform) :
  Nat.even (length (FirestoreModel.nestedPaths this)) = true ->
  faults s = [] ->
  NoDup (map fst (docs s)) ->
  Forall (fun kv => last (fst kv) "" <> "") (docs s) ->
  idgen s (next s) <> "" ->
  exists id s1,
    FirestoreModel.create this data s = (Resolved (pair_result true (VStr id)), s1)
    /\ FirestoreModel.read
         (FirestoreModel.mkFirestore (FirestoreModel.collectionName this) (VStr id)
                                     (FirestoreModel.nestedPaths this)) s1
       = (Resolved (pair_result true data), s1).
Proof.
  intros Hev Hq Hnd Hnamed Hauto.
  set (c := FirestoreModel.collectionName this :: FirestoreModel.nestedPaths this).
  set (s1 := Resolve.created this s data).
  assert (Htarget : Resolve.auto_target this s = c ++ [idgen s (next s)]) by reflexivity.
  assert (Hin : In (idgen s (next s), data) (children c (docs s1))).
  { apply children_in.
    change (docs s1) with (put (Resolve.auto_target this s) data (docs s)).
    rewrite Htarget. apply in_put. }
  destruct (first_match_found _ _ _ Hin) as [id Hid].
  pose proof Hid as Hfirst.
  apply first_match_first in Hfirst as (before & after & Hsplit & _).
  assert (Hstored : In (c ++ [id], data) (docs s1)).
  { apply children_in. rewrite Hsplit. apply in_or_app. right. left. reflexivity. }
  assert (Hne : id <> "").
  { change (docs s1) with (put (Resolve.auto_target this s) data (docs s)) in Hstored.
    apply in_put_inv in Hstored as [[Hp _]|Hold].
    - rewrite Htarget in Hp. apply app_inv_head in Hp. congruence.
    - rewrite Forall_forall in Hnamed. specialize (Hnamed _ Hold).
      cbn [fst] in Hnamed. rewrite last_last in Hnamed. exact Hnamed. }
  exists id, s1. split.
  - rewrite (create_even this s data Hev Hq). fold c. fold s1. rewrite Hid. reflexivity.
  - apply (read_existing _ id data s1); try reflexivity; try assumption.
    apply lookup_in.
    + change (docs s1) with (put (Resolve.auto_target this s) data (docs s)).
      apply put_unique_keys. exact Hnd.
    + exact Hstored.
Qed.

Lemma create_then_read_witness :
  let this := FirestoreModel.mkFirestore "users" VNull ["userA"; "orders"] in
  let data := VObj [("item", VStr "book"); ("qty", VNum 2)] in
  let s := mkPlatform [(["users"; "userA"], VObj [])] [] [] (fun _ => "k1") 0 in
  Nat.even (length (FirestoreModel.nestedPaths this)) = true
  /\ faults s = []
  /\ NoDup (map fst (docs s))
  /\ Forall (fun kv => last (fst kv) "" <> "") (docs s)
  /\ idgen s (next s) <> ""
  /\ exists id s1,
       FirestoreModel.create this data s = (Resolved (pair_result true (VStr id)), s1)
       /\ FirestoreModel.read
            (FirestoreModel.mkFirestore "users" (VStr id) ["userA"; "orders"]) s1
          = (Resolved (pair_result true data), s1).
Proof.
  intros this data s.
  assert (Hnd : NoDup (map fst (docs s))).
  { simpl. repeat constructor; simpl; intuition discriminate. }
  assert (Hnamed : Forall (fun kv => last (fst kv) "" <> "") (docs s)).
  { repeat constructor; simpl; discriminate. }
  assert (Hauto : idgen s (next s) <> "") by (simpl; discriminate).
  repeat split; try assumption.
  exact (create_then_read this data s eq_refl eq_refl Hnd Hnamed Hauto).
Defined.

(** C7. For every stored document id, [delete] on that id followed by [read]
    on the same id yields the not-found outcome. *)
Theorem delete_then_read
    (this : FirestoreModel.Firestore) (id : string) (stored : value) (s : platform) :
  FirestoreModel.uid this = VStr id ->
  id <> "" ->
  Nat.even (length (FirestoreModel.nestedPaths this)) = true ->
  faults s = [] ->
  lookup (FirestoreModel.collectionName this :: FirestoreModel.nestedPaths this ++ [id])
         (docs s) = Some stored ->
  exists s1,
    FirestoreModel.delete this s = (Resolved (pair_result true VNaN), s1)
    /\ FirestoreModel.read this s1
       = (Resolved (pair_result false (VStr "Document does not exist")), s1).
Proof.
  intros Hu Hid Hev Hq _.
  eexists. split.
  - apply (delete_existing this id s); assumption.
  - apply (read_missing this id); try assumption.
    simpl. apply lookup_erase_same.
Qed.

Lemma delete_then_read_witness :
  let this := FirestoreModel.mkFirestore "users" (VStr "u1") [] in
  let s := mkPlatform [(["users"; "u1"], VObj [("name", VStr "Ann")])] [] []
                      (fun _ => "k1") 0 in
  FirestoreModel.uid this = VStr "u1"
  /\ "u1" <> ""
  /\ Nat.even (length (FirestoreModel.nestedPaths this)) = true
  /\ faults s = []
  /\ lookup ["users"; "u1"] (docs s) = Some (VObj [("name", VStr "Ann")])
  /\ exists s1,
       FirestoreModel.delete this s = (Resolved (pair_result true VNaN), s1)
       /\ FirestoreModel.read this s1
          = (Resolved (pair_result false (VStr "Document does not exist")), s1).
Proof.
  intros this s.
  assert (Hid : "u1" <> "") by discriminate.
  repeat split; try assumption.
  exact (delete_then_read this "u1" (VObj [("name", VStr "Ann")]) s
           eq_refl Hid eq_refl eq_refl eq_refl).
Defined.

(** C8. [readAll] is documented to resolve to [[true, allDocs]] with one
    entry per child document.  On the code it never resolves: for a
    collection that holds the document [users/a] the call rejects with a
    TypeError raised by [readPaths], and so it does on every instance and in
    every state. *)
Theorem readAll_rejects :
  (let this := FirestoreModel.mkFirestore "users" (VStr "u1") [] in
   let s := mkPlatform [(["users"; "a"], VObj [("name", VStr "Ann")])] [] []
                       (fun _ => "k1") 0 in
   children ["users"] (docs s) = [("a", VObj [("name", VStr "Ann")])]
   /\ fst (FirestoreModel.readAll this s)
      = Rejected (TypeError "listDocuments is not a function"))
  /\ (forall (this : FirestoreModel.Firestore) (s : platform),
        exists e s',
          FirestoreModel.readAll this s = (Rejected (TypeError e), s')
          /\ docs s' = docs s).
Proof.
  split; [split; reflexivity|].
  intros this s. destruct (readPaths_rejects this s) as (e & s' & Hr & Hd).
  exists e, s'. split; [|exact Hd].
  unfold FirestoreModel.readAll, bind. rewrite Hr. reflexivity.
Qed.

(** C10. [create(data)] never writes to the document named by the uid of the
    instance: it writes to a reference with a freshly generated document id
    (the resolver is called without an id), whatever uid the constructor was
    given. *)
Theorem create_ignores_uid
    (this : FirestoreModel.Firestore) (data : value) (s : platform) :
  (forall u : value,
      FirestoreModel.create
        (FirestoreModel.mkFirestore (FirestoreModel.collectionName this) u
                                    (FirestoreModel.nestedPaths this)) data s
      = FirestoreModel.create this data s)
  /\ (forall q : path,
        q <> Resolve.auto_target this s ->
        lookup q (docs (snd (FirestoreModel.create this data s))) = lookup q (docs s))
  /\ (Nat.even (length (FirestoreModel.nestedPaths this)) = true ->
      faults s = [] ->
      lookup (Resolve.auto_target this s) (docs (snd (FirestoreModel.create this data s)))
      = Some data).
Proof.
  split; [|split].
  - intros u. destruct this; reflexivity.
  - intros q Hq. apply create_frame. exact Hq.
  - intros Hev Hq. rewrite (create_even this s data Hev Hq). simpl.
    apply lookup_put_same.
Qed.

Lemma create_ignores_uid_witness :
  let this := FirestoreModel.mkFirestore "users" (VStr "u1") [] in
  let data := VObj [("name", VStr "Bob")] in
  let s := mkPlatform [(["users"; "u1"], VObj [("name", VStr "Ann")])] [] []
                      (fun _ => "k1") 0 in
  ["users"; "u1"] <> Resolve.auto_target this s
  /\ lookup ["users"; "u1"] (docs (snd (FirestoreModel.create this data s)))
     = Some (VObj [("name", VStr "Ann")])
  /\ lookup ["users"; "k1"] (docs (snd (FirestoreModel.create this data s)))
     = Some data.
Proof.
  intros this data s.
  assert (Hq : ["users"; "u1"] <> Resolve.auto_target this s) by discriminate.
  destruct (create_ignores_uid this data s) as (_ & Hframe & Hwrite).
  split; [exact Hq|]. split.
  - rewrite (Hframe _ Hq). reflexivity.
  - exact (Hwrite eq_refl eq_refl).
Defined.

(** ** Results and exceptions at the method boundary *)

Section Boundary.
Import Wrappers.

Lemma get_prop_object (e : value) (name : string) :
  nullish e = false -> exists m, get_prop e name = Resolved m.
Proof.
  destruct e; simpl; intros H; try discriminate; eauto.
  destruct (assoc name fields); eauto.
Qed.

Lemma get_prop_throws_object (v : value) (name : string) :
  throws_object (get_prop v name).
Proof.
  destruct v; simpl; auto. destruct (assoc name fields); simpl; auto.
Qed.

Lemma catch_message_object (e : value) :
  nullish e = false ->
  exists m, get_prop e "message" = Resolved m
            /\ catch_message e = Resolved (pair_result false m).
Proof.
  intros H. destruct (get_prop_object e "message" H) as [m Hm].
  exists m. split; [exact Hm|]. unfold catch_message. rewrite Hm. reflexivity.
Qed.

Lemma throws_object_obind {A B : Type} (o : outcome A) (k : A -> outcome B)
    (P : outcome B -> Prop) :
  (forall e, o = Rejected e -> P (Rejected e)) ->
  (forall a, o = Resolved a -> P (k a)) ->
  P (obind o k).
Proof. destruct o; simpl; auto. Qed.

Lemma try_catch_converts (body : outcome value) (e m : value) :
  body = Rejected e ->
  get_prop e "message" = Resolved m ->
  try_catch body catch_message = Resolved (pair_result false m).
Proof.
  intros -> Hm. simpl. unfold catch_message. rewrite Hm. reflexivity.
Qed.

End Boundary.

Section Shapes.
Import Wrappers.

Lemma bind_resolved {A B : Type} (m : Async A) (k : A -> Async B)
    (s s' : platform) (v : B) :
  bind m k s = (Resolved v, s') ->
  exists a s1, m s = (Resolved a, s1) /\ k a s1 = (Resolved v, s').
Proof.
  unfold bind. destruct (m s) as [[a|e] s1]; intros H; [eauto | discriminate].
Qed.

Lemma ret_resolved {A : Type} (a v : A) (s s' : platform) :
  ret a s = (Resolved v, s') -> v = a.
Proof. unfold ret. congruence. Qed.

Lemma catch_message_resolved (e v : value) :
  catch_message e = Resolved v -> exists m, v = pair_result false m.
Proof.
  unfold catch_message. destruct (get_prop e "message"); simpl; intros H;
    [inversion H; eauto | discriminate].
Qed.

Lemma try_catch_resolved (body : outcome value) (v : value) :
  try_catch body catch_message = Resolved v ->
  body = Resolved v \/ exists m, v = pair_result false m.
Proof.
  destruct body as [a|e]; simpl; intros H; [left; exact H|].
  right. apply catch_message_resolved with e. exact H.
Qed.

Lemma try_async_resolved (body : Async value) (s s' : platform) (v : value) :
  try_async body RealTimeModel.handler s = (Resolved v, s') ->
  body s = (Resolved v, s') \/ exists m, v = pair_result false m.
Proof.
  unfold try_async, RealTimeModel.handler, lift.
  destruct (body s) as [[a|e] s1]; intros H; [left; exact H|].
  right. apply catch_message_resolved with e. congruence.
Qed.

Lemma obind_resolved {A B : Type} (o : outcome A) (k : A -> outcome B) (v : B) :
  obind o k = Resolved v -> exists a, o = Resolved a /\ k a = Resolved v.
Proof. destruct o; simpl; intros H; [eauto | discriminate]. Qed.

Ltac open_bind H :=
  repeat match type of H with
    | bind _ _ _ = (Resolved _, _) =>
        let a := fresh "a" in
        let s1 := fresh "s" in
        let H1 := fresh "Hstep" in
        apply bind_resolved in H as (a & s1 & H1 & H)
    | obind _ _ = Resolved _ =>
        let a := fresh "a" in
        let H1 := fresh "Hstep" in
        apply obind_resolved in H as (a & H1 & H)
    | (if ?b then _ else _) _ = (Resolved _, _) => destruct b
    | ret _ _ = (Resolved _, _) => apply ret_resolved in H
    | Resolved _ = Resolved _ => inversion H; clear H
    end.

(** Every value a pair-building method returns is a two-element array. *)
Lemma built_pair (c : call) (s s' : platform) (v : value) :
  builds_pair c = true ->
  invoke c s = (Resolved v, s') ->
  two_element v.
Proof.
  unfold two_element.
  destruct c; simpl; try discriminate; intros _ H.
  - unfold RealTimeModel.create in H.
    apply try_async_resolved in H as [H|[m ->]]; [|eauto].
    open_bind H; subst; eauto.
  - unfold RealTimeModel.read in H.
    apply try_async_resolved in H as [H|[m ->]]; [|eauto].
    open_bind H; subst; eauto.
  - unfold RealTimeModel.update in H.
    apply try_async_resolved in H as [H|[m ->]]; [|eauto].
    open_bind H; subst; eauto.
  - unfold RealTimeModel.delete in H.
    apply try_async_resolved in H as [H|[m ->]]; [|eauto].
    open_bind H; subst; eauto.
  - unfold FirestoreModel.create in H. open_bind H; subst; eauto.
  - unfold FirestoreModel.read in H. open_bind H; subst; eauto.
  - unfold FirestoreModel.update in H. open_bind H; subst; eauto.
  - unfold FirestoreModel.delete in H. open_bind H; subst; eauto.
  - unfold lift in H. inversion H as [[Hv Hs]]; clear H.
    apply try_catch_resolved in Hv as [Hv|[m ->]]; [|eauto].
    open_bind Hv; subst; eauto.
  - unfold lift in H. inversion H as [[Hv Hs]]; clear H.
    apply try_catch_resolved in Hv as [Hv|[m ->]]; [|eauto].
    open_bind Hv; subst; eauto.
  - unfold lift in H. inversion H as [[Hv Hs]]; clear H.
    apply try_catch_resolved in Hv as [Hv|[m ->]]; [|eauto].
    open_bind Hv; subst; eauto.
  - unfold lift in H. inversion H as [[Hv Hs]]; clear H.
    apply try_catch_resolved in Hv as [Hv|[m ->]]; [|eauto].
    open_bind Hv; subst; eauto.
  - unfold lift in H. inversion H as [[Hv Hs]]; clear H.
    apply try_catch_resolved in Hv as [Hv|[m ->]]; [|eauto].
    open_bind Hv; subst; eauto.
Qed.

End Shapes.

Section Outcomes.
Import Wrappers.

Lemma realtime_key (ref : path) (k : string) :
  RealTimeModel.key (ref ++ [k]) = VStr k.
Proof. unfold RealTimeModel.key. rewrite rev_unit. reflexivity. Qed.

(** A thrown value with a readable [message] is turned into
    [[false, message]] by every method that has a [catch]. *)
Lemma caught_converted (c : call) (s : platform) (e m : value) :
  catches c = true ->
  collaborator_throws c s e ->
  get_prop e "message" = Resolved m ->
  exists s', invoke c s = (Resolved (pair_result false m), s').
Proof.
  intros Hc Ht Hm. destruct Ht; simpl in Hc; try discriminate.
  - destruct c; simpl in Hc, H; try discriminate;
      inversion H as [Hcall]; exists s; simpl; unfold lift; f_equal;
      apply try_catch_converts with e; try exact Hm.
    + unfold obind. rewrite Hcall. reflexivity.
    + unfold obind. rewrite Hcall. reflexivity.
    + unfold obind. rewrite Hcall. reflexivity.
    + unfold obind. rewrite Hcall. reflexivity.
    + unfold obind. rewrite Hcall. reflexivity.
    + unfold obind. rewrite Hcall. reflexivity.
    + unfold obind. rewrite Hcall. reflexivity.
    + unfold obind. rewrite Hcall. reflexivity.
    + unfold obind. rewrite Hcall. reflexivity.
  - eexists. simpl. unfold RealTimeModel.create, try_async, bind, lift.
    rewrite H, H0. unfold push, set, bind, auto_id, ret, remote. cbn.
    rewrite H1. unfold RealTimeModel.handler, lift, catch_message.
    rewrite Hm. reflexivity.
  - eexists. simpl. unfold RealTimeModel.read, try_async, get, bind, remote.
    rewrite H. unfold RealTimeModel.handler, lift, catch_message.
    rewrite Hm. reflexivity.
  - eexists. simpl. unfold RealTimeModel.update, try_async, set, bind, remote.
    rewrite H. unfold RealTimeModel.handler, lift, catch_message.
    rewrite Hm. reflexivity.
  - eexists. simpl. unfold RealTimeModel.delete, try_async, remove, bind, remote.
    rewrite H. unfold RealTimeModel.handler, lift, catch_message.
    rewrite Hm. reflexivity.
Qed.

(** The Firestore methods have no [catch]: what the collaborator throws
    rejects the promise the caller holds. *)
Lemma firestore_propagates (c : call) (s : platform) (e : value) :
  is_firestore c = true ->
  collaborator_throws c s e ->
  exists s', invoke c s = (Rejected e, s').
Proof.
  intros Hc Ht. destruct Ht; simpl in Hc; try discriminate.
  - destruct c; simpl in Hc, H; discriminate.
  - eexists. simpl. unfold FirestoreModel.create, bind.
    rewrite (resolve_auto_even this s VNull H eq_refl).
    unfold doc_set, bind. rewrite (remote_fails (Resolve.drawn s) e rest H0).
    reflexivity.
  - eexists. simpl. unfold FirestoreModel.read, bind. rewrite H.
    rewrite (resolve_id_even this s id H1 H0).
    unfold ref_get, bind. rewrite (remote_fails s e rest H2). reflexivity.
  - eexists. simpl. unfold FirestoreModel.update, bind. rewrite H.
    rewrite (resolve_id_even this s id H1 H0).
    unfold doc_update, bind. rewrite (remote_fails s e rest H2). reflexivity.
  - eexists. simpl. unfold FirestoreModel.update, bind. rewrite H.
    rewrite (resolve_id_even this s id H1 H0).
    unfold doc_update, bind. rewrite (remote_quiet s H2), H3. reflexivity.
  - eexists. simpl. unfold FirestoreModel.delete, bind. rewrite H.
    rewrite (resolve_id_even this s id H1 H0).
    unfold doc_delete, bind. rewrite (remote_fails s e rest H2). reflexivity.
Qed.

Lemma success_result (c : call) (s : platform) (payload : value) :
  succeeds c s payload ->
  exists s', invoke c s = (Resolved (pair_result true payload), s').
Proof.
  intros Hs. destruct Hs; simpl.
  - eexists. unfold RealTimeModel.create, try_async, bind, lift.
    rewrite H, H0. unfold push, set, bind, auto_id, ret, remote. cbn.
    rewrite H1. rewrite realtime_key. reflexivity.
  - eexists. unfold RealTimeModel.read, try_async, get, bind.
    rewrite (remote_quiet s H). reflexivity.
  - eexists. unfold RealTimeModel.update, try_async, set, bind.
    rewrite (remote_quiet s H). reflexivity.
  - eexists. unfold RealTimeModel.delete, try_async, remove, bind.
    rewrite (remote_quiet s H). reflexivity.
  - eexists. rewrite (create_even this s data H H0). reflexivity.
  - eexists. apply (read_existing this id stored s); assumption.
  - eexists. unfold FirestoreModel.update, bind. rewrite H.
    rewrite (resolve_id_even this s id H1 H0).
    unfold doc_update, bind. rewrite (remote_quiet s H2), H3. reflexivity.
  - eexists. apply (delete_existing this id s); assumption.
  - exists s. unfold lift, AuthenticationModel.createUser.
    rewrite H. simpl. rewrite H0. reflexivity.
  - exists s. unfold lift, AuthenticationModel.loginUser.
    rewrite H. simpl. rewrite H0. simpl. rewrite H1. reflexivity.
  - exists s. unfold lift, AuthenticationModel.updateUser.
    rewrite H. simpl. rewrite H0. reflexivity.
  - exists s. unfold lift, AuthenticationModel.getUser.
    rewrite H. reflexivity.
  - exists s. unfold lift, AuthenticationModel.deleteUser.
    rewrite H. reflexivity.
Qed.

Lemma failure_result (c : call) (s : platform) (m : value) :
  fails c s m ->
  exists s', invoke c s = (Resolved (pair_result false m), s').
Proof.
  intros Hf. destruct Hf.
  - apply caught_converted with e; assumption.
  - exists s. simpl. unfold RealTimeModel.create, try_async, bind, lift.
    rewrite H, H0. reflexivity.
  - exists s. simpl. apply (read_missing this id s); assumption.
Qed.

End Outcomes.

Section NeverRejects.
Import Wrappers.

Lemma try_catch_resolves (body : outcome value) :
  throws_object body -> exists v, try_catch body catch_message = Resolved v.
Proof.
  destruct body as [v|e]; simpl; intros H; [eauto|].
  destruct (catch_message_object e H) as (m & _ & ->). eauto.
Qed.

Lemma planned_head (s : platform) (e : value) (rest : list (option value)) :
  planned_objects s -> faults s = Some e :: rest -> nullish e = false.
Proof.
  unfold planned_objects. intros Hp Hf. rewrite Hf in Hp.
  inversion Hp; assumption.
Qed.

Lemma realtime_resolves (c : call) (s : platform) :
  match c with
  | RealTime_create _ _ | RealTime_read _ | RealTime_update _ _ _
  | RealTime_delete _ _ => True
  | _ => False
  end ->
  planned_objects s ->
  exists v s', invoke c s = (Resolved v, s').
Proof.
  intros Hc Hp. destruct c; try contradiction; simpl.
  - unfold RealTimeModel.create, try_async, bind, lift.
    destruct (Object_values data) as [values|e] eqn:Hv.
    + destruct (existsb is_undefined values); [unfold ret; eauto|].
      unfold push, set, bind, auto_id, ret, remote. cbn.
      destruct (faults s) as [|[e|] rest] eqn:Hf; eauto.
      unfold RealTimeModel.handler, lift.
      destruct (catch_message_object e (planned_head s e rest Hp Hf)) as (m & _ & ->).
      eauto.
    + destruct data; simpl in Hv; try discriminate; inversion Hv; subst;
        eexists; eexists; reflexivity.
  - unfold RealTimeModel.read, try_async, get, bind, remote.
    destruct (faults s) as [|[e|] rest] eqn:Hf; cbn; eauto.
    unfold RealTimeModel.handler, lift.
    destruct (catch_message_object e (planned_head s e rest Hp Hf)) as (m & _ & ->).
    eauto.
  - unfold RealTimeModel.update, try_async, set, bind, remote.
    destruct (faults s) as [|[e|] rest] eqn:Hf; cbn; eauto.
    unfold RealTimeModel.handler, lift.
    destruct (catch_message_object e (planned_head s e rest Hp Hf)) as (m & _ & ->).
    eauto.
  - unfold RealTimeModel.delete, try_async, remove, bind, remote.
    destruct (faults s) as [|[e|] rest] eqn:Hf; cbn; eauto.
    unfold RealTimeModel.handler, lift.
    destruct (catch_message_object e (planned_head s e rest Hp Hf)) as (m & _ & ->).
    eauto.
Qed.

Ltac objects :=
  repeat first
    [ exact I
    | apply get_prop_throws_object
    | solve [auto]
    | apply (throws_object_obind _ _ throws_object);
      [ let e := fresh "e" in
        let Hrej := fresh "Hrej" in
        intros e Hrej; rewrite <- Hrej; clear Hrej
      | intros ? _ ] ].

Lemma authentication_resolves (c : call) (s : platform) :
  catches c = true ->
  match service_call c with Some _ => True | None => False end ->
  collaborator_throws_objects c s ->
  exists v s', invoke c s = (Resolved v, s').
Proof.
  intros Hc Hs Ht.
  destruct c; simpl in Hc, Hs; try discriminate; try contradiction;
    simpl in Ht;
    destruct Ht as (H1 & H2 & H3 & H4 & H5 & H6 & H7 & H8 & H9 & H10);
    simpl; unfold lift;
    match goal with
    | |- exists v s', (?m, _) = _ =>
        assert (Hr : exists v, m = Resolved v);
        [ apply try_catch_resolves | destruct Hr as [v ->]; eauto ]
    end.
  - objects.
  - objects.
  - unfold AuthenticationModel.call_toJSON. objects.
  - objects.
  - objects.
  - objects.
  - objects.
  - objects.
  - objects. destruct a0; simpl; auto.
Qed.

Lemma caught_resolves (c : call) (s : platform) :
  catches c = true ->
  collaborator_throws_objects c s ->
  exists v s', invoke c s = (Resolved v, s').
Proof.
  intros Hc Ht.
  destruct c; try discriminate;
    first [ apply realtime_resolves; [exact I | exact Ht]
          | apply authentication_resolves; [exact Hc | exact I | exact Ht] ].
Qed.

End NeverRejects.

(** ** The uniform result convention *)

(** C1, as stated, fails: [verificationEmail] hands the link of the service
    to the caller as it is, not inside a two-element array. *)
Lemma results_not_all_pairs :
  ~ (forall (c : Wrappers.call) (s : platform),
        exists flag payload s',
          Wrappers.invoke c s = (Resolved (pair_result flag payload), s')).
Proof.
  intros H.
  destruct (H (Wrappers.Authentication_verificationEmail
                 Wrappers.sample_service (VStr "ann@example.test"))
              Wrappers.empty_platform) as (flag & payload & s' & Heq).
  discriminate Heq.
Qed.

(** What three more methods return when the service call succeeds: the
    answer of the service, unwrapped. *)
Example createPhoneVerification_unwrapped :
  AuthenticationModel.createPhoneVerification Wrappers.sample_service (VStr "+15550100")
  = Resolved (VStr "cookie").
Proof. reflexivity. Qed.

Example resetPassword_unwrapped :
  AuthenticationModel.resetPassword Wrappers.sample_service (VStr "ann@example.test")
  = Resolved VUndefined.
Proof. reflexivity. Qed.

Example getUsers_unwrapped :
  AuthenticationModel.getUsers Wrappers.sample_service
  = Resolved (VArr [VObj [("uid", VStr "u1"); ("error", VStr "No user data found")]]).
Proof. reflexivity. Qed.

(** C1, amended. Every value returned by a method of [RealTime], by
    [createUser], [loginUser], [updateUser], [getUser] or [deleteUser] of
    [Authentication], or by [create], [read], [update] or [delete] of
    [Firestore] is a two-element array: [[true, payload]] when the
    collaborator calls succeed, [[false, message]] for a failure the method
    reports; the [RealTime] and [Authentication] methods among them return
    such an array whatever object the collaborator throws. *)
Theorem pair_results (c : Wrappers.call) (s : platform) :
  (Wrappers.builds_pair c = true ->
   forall v s', Wrappers.invoke c s = (Resolved v, s') -> Wrappers.two_element v)
  /\ (forall payload,
        Wrappers.succeeds c s payload ->
        exists s', Wrappers.invoke c s = (Resolved (pair_result true payload), s'))
  /\ (forall m,
        Wrappers.fails c s m ->
        exists s', Wrappers.invoke c s = (Resolved (pair_result false m), s'))
  /\ (Wrappers.builds_pair c = true ->
      Wrappers.catches c = true ->
      Wrappers.collaborator_throws_objects c s ->
      exists flag payload s',
        Wrappers.invoke c s = (Resolved (pair_result flag payload), s')).
Proof.
  split; [|split; [|split]].
  - intros Hb v s' Hr. apply (built_pair c s s' v Hb Hr).
  - intros payload Hs. apply success_result. exact Hs.
  - intros m Hf. apply failure_result. exact Hf.
  - intros Hb Hc Ht.
    destruct (caught_resolves c s Hc Ht) as (v & s' & Hr).
    destruct (built_pair c s s' v Hb Hr) as (flag & payload & ->).
    exists flag, payload, s'. exact Hr.
Qed.

Lemma pair_results_witness :
  let ok := Wrappers.Authentication_getUser Wrappers.sample_service (VStr "u1") in
  let ko := Wrappers.Authentication_getUser
              (Wrappers.failing_service (Error "no such user")) (VStr "u1") in
  let s := Wrappers.empty_platform in
  Wrappers.succeeds ok s (VObj [("uid", VStr "u1")])
  /\ Wrappers.fails ko s (VStr "no such user")
  /\ (exists s', Wrappers.invoke ok s
                 = (Resolved (pair_result true (VObj [("uid", VStr "u1")])), s'))
  /\ (exists s', Wrappers.invoke ko s
                 = (Resolved (pair_result false (VStr "no such user")), s')).
Proof.
  intros ok ko s.
  assert (Hs : Wrappers.succeeds ok s (VObj [("uid", VStr "u1")])).
  { apply Wrappers.getUser_ok with (user := VObj [("uid", VStr "u1")]). reflexivity. }
  assert (Hf : Wrappers.fails ko s (VStr "no such user")).
  { apply Wrappers.thrown_and_caught with (e := Error "no such user");
      [reflexivity | apply Wrappers.service_throws; reflexivity | reflexivity]. }
  split; [exact Hs|]. split; [exact Hf|]. split.
  - exact (proj1 (proj2 (pair_results ok s)) _ Hs).
  - exact (proj1 (proj2 (proj2 (pair_results ko s))) _ Hf).
Defined.

(** ** Exceptions at the method boundary *)

(** C2, as stated, fails: [Firestore.create] has no [catch]; when the write
    fails, the promise it returns is rejected. *)
Lemma exceptions_not_all_caught :
  ~ (forall (c : Wrappers.call) (s : platform),
        exists v s', Wrappers.invoke c s = (Resolved v, s')).
Proof.
  intros H.
  destruct (H (Wrappers.Firestore_create
                 (FirestoreModel.mkFirestore "users" VNull [])
                 (VObj [("name", VStr "Ann")]))
              (mkPlatform [] [] [Some (Error "UNAVAILABLE")] (fun _ => "k1") 0))
    as (v & s' & Heq).
  discriminate Heq.
Qed.

(** A thrown [undefined] escapes even a [catch]: reading its [message]
    throws in turn. *)
Example caught_undefined_escapes :
  fst (RealTimeModel.read (RealTimeModel.mkRealTime ["items"])
         (mkPlatform [] [] [Some VUndefined] (fun _ => "k1") 0))
  = Rejected (TypeError "Cannot read properties of undefined, reading message").
Proof. reflexivity. Qed.

(** C2, amended. In every method of [RealTime] and in every method of
    [Authentication] other than [verificationEmail], an exception raised by
    the collaborator during the call is caught at the method boundary and
    does not reach the caller, as long as what is thrown is an object; an
    error with a readable message is converted into the returned value
    [[false, message]].  The methods of [Firestore] and [verificationEmail]
    have no [catch]: what the collaborator throws rejects the promise they
    return. *)
Theorem exceptions_at_boundary (c : Wrappers.call) (s : platform) :
  (Wrappers.catches c = true ->
   Wrappers.collaborator_throws_objects c s ->
   exists v s', Wrappers.invoke c s = (Resolved v, s'))
  /\ (forall e m,
        Wrappers.catches c = true ->
        Wrappers.collaborator_throws c s e ->
        get_prop e "message" = Resolved m ->
        exists s', Wrappers.invoke c s = (Resolved (pair_result false m), s'))
  /\ (forall e,
        Wrappers.is_firestore c = true ->
        Wrappers.collaborator_throws c s e ->
        exists s', Wrappers.invoke c s = (Rejected e, s'))
  /\ (forall this email e,
        c = Wrappers.Authentication_verificationEmail this email ->
        Wrappers.collaborator_throws c s e ->
        Wrappers.invoke c s = (Rejected e, s)).
Proof.
  split; [|split; [|split]].
  - apply caught_resolves.
  - intros e m Hc Ht Hm. apply caught_converted with e; assumption.
  - intros e Hf Ht. apply firestore_propagates; assumption.
  - intros this email e -> Ht. inversion Ht as [c0 s0 e0 Hcall| | | | | | | | |]; subst.
    simpl in Hcall. inversion Hcall as [Hlink].
    simpl. unfold lift, AuthenticationModel.verificationEmail. rewrite Hlink.
    reflexivity.
Qed.

Lemma exceptions_at_boundary_witness :
  let e := Error "UNAVAILABLE" in
  let s := mkPlatform [] [] [Some e] (fun _ => "k1") 0 in
  let rt := Wrappers.RealTime_read (RealTimeModel.mkRealTime ["items"]) in
  let fs := Wrappers.Firestore_create (FirestoreModel.mkFirestore "users" VNull [])
                                      (VObj [("name", VStr "Ann")]) in
  Wrappers.catches rt = true
  /\ Wrappers.collaborator_throws rt s e
  /\ get_prop e "message" = Resolved (VStr "UNAVAILABLE")
  /\ Wrappers.is_firestore fs = true
  /\ Wrappers.collaborator_throws fs s e
  /\ (exists s', Wrappers.invoke rt s
                 = (Resolved (pair_result false (VStr "UNAVAILABLE")), s'))
  /\ (exists s', Wrappers.invoke fs s = (Rejected e, s')).
Proof.
  intros e s rt fs.
  assert (Hrt : Wrappers.collaborator_throws rt s e).
  { apply Wrappers.realtime_read_throws with (rest := []). reflexivity. }
  assert (Hfs : Wrappers.collaborator_throws fs s e).
  { apply Wrappers.firestore_create_throws with (rest := []); reflexivity. }
  repeat split; try assumption.
  - exact (proj1 (proj2 (exceptions_at_boundary rt s)) e (VStr "UNAVAILABLE")
             eq_refl Hrt eq_refl).
  - exact (proj1 (proj2 (proj2 (exceptions_at_boundary fs s))) e eq_refl Hfs).
Defined.

(** ** Undefined values in [RealTime.create] *)

Lemma existsb_undefined (fields : list (string * value)) (k : string) :
  In (k, VUndefined) fields -> existsb is_undefined (map snd fields) = true.
Proof.
  intros Hin. apply existsb_exists. exists VUndefined. split; [|reflexivity].
  change VUndefined with (snd (k, VUndefined)). apply in_map. exact Hin.
Qed.

(** C9. For every data object in which some top-level value is undefined,
    [RealTime.create(data)] returns [[false, "Data contains undefined
    values"]] and performs no write: the platform is left as it was. *)
Theorem create_undefined_values
    (this : RealTimeModel.RealTime) (fields : list (string * value)) (k : string)
    (s : platform) :
  In (k, VUndefined) fields ->
  RealTimeModel.create this (VObj fields) s
  = (Resolved (pair_result false (VStr "Data contains undefined values")), s).
Proof.
  intros Hin. unfold RealTimeModel.create, try_async, bind, lift.
  change (Object_values (VObj fields)) with (Resolved (map snd fields)).
  cbv beta iota. rewrite (existsb_undefined fields k Hin). reflexivity.
Qed.

Lemma create_undefined_values_witness :
  let data := [("name", VStr "John"); ("age", VUndefined)] in
  let s := mkPlatform [] [(["items"; "k0"], VObj [("name", VStr "Jane")])] []
                      (fun _ => "k1") 0 in
  In ("age", VUndefined) data
  /\ RealTimeModel.create (RealTimeModel.mkRealTime ["items"]) (VObj data) s
     = (Resolved (pair_result false (VStr "Data contains undefined values")), s).
Proof.
  intros data s.
  assert (Hin : In ("age", VUndefined) data) by (right; left; reflexivity).
  split; [exact Hin|].
  exact (create_undefined_values (RealTimeModel.mkRealTime ["items"]) data "age" s Hin).
Defined.

(** * Further properties of the wrappers *)

(** ** Objects: assignment and spread *)

Section ObjectFacts.

Lemma assoc_set_prop_same (k : string) (v : value) (fields : list (string * value)) :
  assoc k (set_prop k v fields) = Some v.
Proof.
  induction fields as [|[k' v'] rest IH]; simpl.
  - rewrite String.eqb_refl. reflexivity.
  - destruct (String.eqb k k') eqn:He; simpl.
    + rewrite String.eqb_refl. reflexivity.
    + rewrite He. exact IH.
Qed.

Lemma assoc_set_prop_other (k k' : string) (v : value) (fields : list (string * value)) :
  k' <> k -> assoc k' (set_prop k v fields) = assoc k' fields.
Proof.
  intros Hne. induction fields as [|[k0 v0] rest IH]; simpl.
  - destruct (String.eqb_spec k' k); [contradiction | reflexivity].
  - destruct (String.eqb_spec k k0) as [Heq|Hk]; simpl.
    + subst k0. destruct (String.eqb_spec k' k); [contradiction | reflexivity].
    + destruct (String.eqb k' k0); [reflexivity | exact IH].
Qed.

Lemma assoc_app (k : string) (l1 l2 : list (string * value)) :
  assoc k (l1 ++ l2)
  = match assoc k l1 with Some v => Some v | None => assoc k l2 end.
Proof.
  induction l1 as [|[k' v'] rest IH]; simpl; [reflexivity|].
  destruct (String.eqb k k'); [reflexivity | exact IH].
Qed.

Lemma assoc_some_key (k : string) (v : value) (l : list (string * value)) :
  assoc k l = Some v -> In k (map fst l).
Proof.
  induction l as [|[k' v'] rest IH]; simpl; [discriminate|].
  destruct (String.eqb_spec k k'); intros H; [left; congruence | right; auto].
Qed.

(** With distinct keys the order of the properties does not matter to a
    read. *)
Lemma assoc_rev (k : string) (l : list (string * value)) :
  NoDup (map fst l) -> assoc k (rev l) = assoc k l.
Proof.
  induction l as [|[k' v'] rest IH]; simpl; intros Hnd; [reflexivity|].
  inversion Hnd as [|? ? Hnotin Hrest]; subst.
  rewrite assoc_app, (IH Hrest). simpl.
  destruct (assoc k rest) as [v|] eqn:Ha.
  - destruct (String.eqb_spec k k') as [Heq|Hne]; [|reflexivity].
    subst k'. exfalso. apply Hnotin. apply assoc_some_key with v. exact Ha.
  - destruct (String.eqb k k'); reflexivity.
Qed.

Lemma assoc_fold_set (k : string) (props target : list (string * value)) :
  assoc k (fold_left (fun acc kv => set_prop (fst kv) (snd kv) acc) props target)
  = match assoc k (rev props) with
    | Some v => Some v
    | None => assoc k target
    end.
Proof.
  revert target. induction props as [|[k0 v0] rest IH]; intros target; simpl.
  - reflexivity.
  - rewrite IH, assoc_app. simpl.
    destruct (assoc k (rev rest)); [reflexivity|].
    destruct (String.eqb_spec k k0) as [Heq|Hne].
    + subst k0. apply assoc_set_prop_same.
    + apply assoc_set_prop_other. exact Hne.
Qed.

(** Reading a property of [{ ...target, ...source }]: the property of
    [source] when it has one, that of [target] otherwise. *)
Lemma assoc_spread (k : string) (target source : list (string * value)) :
  NoDup (map fst source) ->
  assoc k (spread target (VObj source))
  = match assoc k source with
    | Some v => Some v
    | None => assoc k target
    end.
Proof.
  intros Hnd. unfold spread. simpl own_props.
  rewrite assoc_fold_set, (assoc_rev k source Hnd). reflexivity.
Qed.

Lemma distinct_NoDup (keys : list string) :
  Domain.distinct keys = true -> NoDup keys.
Proof.
  induction keys as [|k rest IH]; simpl; intros H; [constructor|].
  apply andb_true_iff in H as [Hk Hrest].
  constructor; [|auto].
  intros Hin. apply negb_true_iff in Hk.
  assert (Hex : existsb (String.eqb k) rest = true).
  { apply existsb_exists. exists k. split; [exact Hin | apply String.eqb_refl]. }
  congruence.
Qed.

End ObjectFacts.

(** ** More facts about the path-keyed store *)

Section EraseFacts.


Lemma lookup_erase_other (p q : path) (l : entries) :
  q <> p -> lookup q (erase p l) = lookup q l.
Proof.
  intros Hne. induction l as [|[r x] rest IH]; simpl; [reflexivity|].
  destruct (path_eq_dec p r) as [Heq|Hpr]; simpl.
  - subst r. destruct (path_eq_dec q p); [contradiction | exact IH].
  - destruct (path_eq_dec q r); [reflexivity | exact IH].
Qed.

Lemma erase_erase (p : path) (l : entries) : erase p (erase p l) = erase p l.
Proof.
  induction l as [|[r x] rest IH]; simpl; [reflexivity|].
  destruct (path_eq_dec p r) as [Heq|Hne]; simpl; [exact IH|].
  destruct (path_eq_dec p r); [contradiction | rewrite IH; reflexivity].
Qed.

Lemma erase_absent (p : path) (l : entries) :
  lookup p l = None -> erase p l = l.
Proof.
  induction l as [|[r x] rest IH]; simpl; [reflexivity|].
  destruct (path_eq_dec p r); [discriminate|].
  intros H. rewrite (IH H). reflexivity.
Qed.

Lemma keys_put_present (p : path) (v old : value) (l : entries) :
  lookup p l = Some old -> map fst (put p v l) = map fst l.
Proof.
  induction l as [|[r x] rest IH]; simpl; [discriminate|].
  destruct (path_eq_dec p r) as [Heq|Hne]; simpl.
  - intros _. congruence.
  - intros H. rewrite (IH H). reflexivity.
Qed.

End EraseFacts.

(** ** The RealTime wrapper on the realtime tree *)

Section RealTimeRuns.
Import RealTimeModel.





End RealTimeRuns.



(** X2. The [id] of an item listed by [RealTime.read] is the key of the
    child, unless the stored object has an [id] property of its own, which
    then wins (the spread comes after [id]); every other property is the
    stored one. *)
Theorem realtime_item_id (k : string) (fields : list (string * value)) :
  NoDup (map fst fields) ->
  (assoc "id" fields = None ->
   get_prop (RealTimeModel.item (k, VObj fields)) "id" = Resolved (VStr k))
  /\ (forall v, assoc "id" fields = Some v ->
        get_prop (RealTimeModel.item (k, VObj fields)) "id" = Resolved v)
  /\ (forall name, name <> "id" ->
        get_prop (RealTimeModel.item (k, VObj fields)) name
        = get_prop (VObj fields) name).
Proof.
  intros Hnd. unfold RealTimeModel.item, get_prop. cbn [fst snd].
  split; [|split].
  - intros Hnone. rewrite (assoc_spread _ _ _ Hnd), Hnone. reflexivity.
  - intros v Hsome. rewrite (assoc_spread _ _ _ Hnd), Hsome. reflexivity.
  - intros name Hne. rewrite (assoc_spread _ _ _ Hnd).
    destruct (assoc name fields); [reflexivity|].
    simpl. destruct (String.eqb_spec name "id"); [contradiction | reflexivity].
Qed.

Lemma realtime_item_id_witness :
  let fields := [("id", VStr "mine"); ("name", VStr "Jane")] in
  NoDup (map fst fields)
  /\ get_prop (RealTimeModel.item ("k0", VObj fields)) "id" = Resolved (VStr "mine")
  /\ get_prop (RealTimeModel.item ("k0", VObj [("name", VStr "Jane")])) "id"
     = Resolved (VStr "k0").
Proof.
  intros fields.
  assert (Hnd : NoDup (map fst fields)).
  { simpl. repeat constructor; simpl; intuition discriminate. }
  assert (Hnd1 : NoDup (map fst [("name", VStr "Jane")])).
  { simpl. repeat constructor; simpl; intuition. }
  split; [exact Hnd|]. split.
  - exact (proj1 (proj2 (realtime_item_id "k0" fields Hnd)) (VStr "mine") eq_refl).
  - exact (proj1 (realtime_item_id "k0" [("name", VStr "Jane")] Hnd1) eq_refl).
Defined.





(** X5. [RealTime.create] given [null] or [undefined] does not throw and
    writes nothing: [Object.values] throws inside the [try], and the method
    returns [[false, message]] with the message of that TypeError. *)
Theorem realtime_create_nullish
    (this : RealTimeModel.RealTime) (data : value) (s : platform) :
  nullish data = true ->
  RealTimeModel.create this data s
  = (Resolved (pair_result false (VStr "Cannot convert undefined or null to object")), s).
Proof.
  intros Hn. destruct data; simpl in Hn; try discriminate; reflexivity.
Qed.

Lemma realtime_create_nullish_witness :
  let s := mkPlatform [] [(["items"; "k0"], VNum 1)] [] (fun _ => "k1") 0 in
  nullish VNull = true
  /\ RealTimeModel.create (RealTimeModel.mkRealTime ["items"]) VNull s
     = (Resolved (pair_result false (VStr "Cannot convert undefined or null to object")), s).
Proof.
  intros s. split; [reflexivity|].
  exact (realtime_create_nullish (RealTimeModel.mkRealTime ["items"]) VNull s eq_refl).
Defined.

(** X6. A RealTime method that returns [[false, message]] has written
    nothing: whatever the input and whatever the collaborator does, the
    nodes of the realtime tree are the same after the call as before. *)
Theorem realtime_failure_writes_nothing
    (c : Wrappers.call) (s s' : platform) (m : value) :
  Wrappers.is_realtime c = true ->
  Wrappers.invoke c s = (Resolved (pair_result false m), s') ->
  nodes s' = nodes s.
Proof.
  intros Hc H. destruct c; simpl in Hc; try discriminate; simpl in H.
  - unfold RealTimeModel.create, try_async, bind, lift in H.
    destruct (Object_values data) as [values|e].
    + destruct (existsb is_undefined values).
      * unfold ret in H. inversion H. reflexivity.
      * unfold push, set, bind, auto_id, ret, remote in H. cbn in H.
        destruct (faults s) as [|[e|] rest]; cbn in H;
          try (inversion H; fail).
        unfold RealTimeModel.handler, lift in H. inversion H. reflexivity.
    + unfold RealTimeModel.handler, lift in H. inversion H. reflexivity.
  - unfold RealTimeModel.read, try_async, get, bind, remote in H.
    destruct (faults s) as [|[e|] rest]; cbn in H;
      unfold RealTimeModel.handler, lift in H; inversion H; reflexivity.
  - unfold RealTimeModel.update, try_async, set, bind, remote in H.
    destruct (faults s) as [|[e|] rest]; cbn in H;
      try (inversion H; fail).
    unfold RealTimeModel.handler, lift in H. inversion H. reflexivity.
  - unfold RealTimeModel.delete, try_async, remove, bind, remote in H.
    destruct (faults s) as [|[e|] rest]; cbn in H;
      try (inversion H; fail).
    unfold RealTimeModel.handler, lift in H. inversion H. reflexivity.
Qed.

Lemma realtime_failure_writes_nothing_witness :
  let c := Wrappers.RealTime_update (RealTimeModel.mkRealTime ["items"]) "k0"
                                    (VObj [("name", VStr "Jane")]) in
  let s := mkPlatform [] [(["items"; "k0"], VNum 1)] [Some (Error "PERMISSION_DENIED")]
                      (fun _ => "k1") 0 in
  let s' := mkPlatform [] [(["items"; "k0"], VNum 1)] [] (fun _ => "k1") 0 in
  Wrappers.is_realtime c = true
  /\ Wrappers.invoke c s = (Resolved (pair_result false (VStr "PERMISSION_DENIED")), s')
  /\ nodes s' = nodes s.
Proof.
  intros c s s'. split; [reflexivity|]. split; [reflexivity|].
  exact (realtime_failure_writes_nothing c s s' (VStr "PERMISSION_DENIED")
           eq_refl eq_refl).
Defined.

(** ** More on the Firestore wrapper *)

Section FirestoreMore.
Import FirestoreModel Resolve.

Lemma update_existing (this : Firestore) (id : string) (old data : value)
    (s : platform) :
  uid this = VStr id -> id <> "" ->
  Nat.even (length (nestedPaths this)) = true ->
  faults s = [] ->
  lookup (collectionName this :: nestedPaths this ++ [id]) (docs s) = Some old ->
  update this data s
  = (Resolved (pair_result true VNaN),
     with_docs (put (collectionName this :: nestedPaths this ++ [id])
                    (VObj (spread (own_props old) data)) (docs s)) s).
Proof.
  intros Hu Hid Hev Hq Hl. unfold update, bind. rewrite Hu.
  rewrite (resolve_id_even this s id Hev Hid).
  unfold doc_update, bind. rewrite (remote_quiet s Hq), Hl. reflexivity.
Qed.

(** Every outcome of [getNestedCollectionReference] leaves the documents
    alone. *)
Lemma resolve_keeps_docs (this : Firestore) (u : value) (s : platform) :
  docs (snd (getNestedCollectionReference this u s)) = docs s.
Proof.
  unfold getNestedCollectionReference, bind, lift.
  destruct (descend (this_collection this) (nestedPaths this)) as [r|e];
    [|reflexivity].
  destruct (truthy u); [reflexivity|].
  destruct r; reflexivity.
Qed.

Lemma remote_keeps_docs (s : platform) : docs (snd (remote s)) = docs s.
Proof. unfold remote. destruct (faults s) as [|[e|] rest]; reflexivity. Qed.

End FirestoreMore.

(** X7. [Firestore.create] can report a failure after it has written: when
    the write succeeds and the lookup of the id by content then fails, the
    promise is rejected with that error although the document is stored
    under the generated id. *)
Theorem create_rejects_after_write
    (this : FirestoreModel.Firestore) (data e : value) (rest : list (option value))
    (s : platform) :
  Nat.even (length (FirestoreModel.nestedPaths this)) = true ->
  faults s = None :: Some e :: rest ->
  exists s',
    FirestoreModel.create this data s = (Rejected e, s')
    /\ lookup (Resolve.auto_target this s) (docs s') = Some data.
Proof.
  intros Hev Hf. eexists. split.
  - unfold FirestoreModel.create, bind.
    rewrite (resolve_auto_even this s VNull Hev eq_refl).
    unfold doc_set, FirestoreModel.getDocumentIdByContent, bind, remote,
      Resolve.drawn, with_docs, with_faults. cbn. rewrite Hf. cbn. reflexivity.
  - cbn. apply lookup_put_same.
Qed.

Lemma create_rejects_after_write_witness :
  let this := FirestoreModel.mkFirestore "users" VNull [] in
  let data := VObj [("name", VStr "Ann")] in
  let e := Error "UNAVAILABLE" in
  let s := mkPlatform [] [] [None; Some e] (fun _ => "k1") 0 in
  Nat.even (length (FirestoreModel.nestedPaths this)) = true
  /\ faults s = [None; Some e]
  /\ exists s',
       FirestoreModel.create this data s = (Rejected e, s')
       /\ lookup ["users"; "k1"] (docs s') = Some data.
Proof.
  intros this data e s. split; [reflexivity|]. split; [reflexivity|].
  exact (create_rejects_after_write this data e [] s eq_refl eq_refl).
Defined.

(** X8. [Firestore.update] followed by [read] on the same instance: for an
    existing document and a patch whose keys each name one top-level field
    (no dotted or otherwise path-like key, at least one field, storable
    values), [read] returns the stored object with the fields of the patch
    set to the patch's values and every other field as it was. *)
Theorem update_then_read
    (this : FirestoreModel.Firestore) (id : string)
    (old patch : list (string * value)) (s : platform) :
  FirestoreModel.uid this = VStr id ->
  id <> "" ->
  Nat.even (length (FirestoreModel.nestedPaths this)) = true ->
  faults s = [] ->
  Domain.valid_patch patch = true ->
  Domain.firestore_storable (VObj old) = true ->
  lookup (FirestoreModel.collectionName this :: FirestoreModel.nestedPaths this ++ [id])
         (docs s) = Some (VObj old) ->
  exists s1 merged,
    FirestoreModel.update this (VObj patch) s = (Resolved (pair_result true VNaN), s1)
    /\ FirestoreModel.read this s1 = (Resolved (pair_result true (VObj merged)), s1)
    /\ forall k,
         assoc k merged
         = match assoc k patch with
           | Some v => Some v
           | None => assoc k old
           end.
Proof.
  intros Hu Hid Hev Hq Hvalid _ Hl.
  assert (Hnd : NoDup (map fst patch)).
  { unfold Domain.valid_patch in Hvalid.
    apply andb_true_iff in Hvalid as [Hvalid _].
    apply andb_true_iff in Hvalid as [_ Hd].
    apply distinct_NoDup. exact Hd. }
  eexists. exists (spread old (VObj patch)). split.
  - apply (update_existing this id (VObj old) (VObj patch) s Hu Hid Hev Hq Hl).
  - split.
    + apply (read_existing this id); try assumption. cbn [docs with_docs].
      apply lookup_put_same.
    + intros k. apply assoc_spread. exact Hnd.
Qed.

Lemma update_then_read_witness :
  let this := FirestoreModel.mkFirestore "users" (VStr "u1") [] in
  let old := [("name", VStr "Ann"); ("age", VNum 30)] in
  let patch := [("age", VNum 31)] in
  let s := mkPlatform [(["users"; "u1"], VObj old)] [] [] (fun _ => "k1") 0 in
  FirestoreModel.uid this = VStr "u1"
  /\ "u1" <> ""
  /\ Nat.even (length (FirestoreModel.nestedPaths this)) = true
  /\ faults s = []
  /\ Domain.valid_patch patch = true
  /\ Domain.firestore_storable (VObj old) = true
  /\ lookup ["users"; "u1"] (docs s) = Some (VObj old)
  /\ exists s1 merged,
       FirestoreModel.update this (VObj patch) s = (Resolved (pair_result true VNaN), s1)
       /\ FirestoreModel.read this s1 = (Resolved (pair_result true (VObj merged)), s1)
       /\ assoc "age" merged = Some (VNum 31)
       /\ assoc "name" merged = Some (VStr "Ann").
Proof.
  intros this old patch s.
  assert (Hid : "u1" <> "") by discriminate.
  split; [reflexivity|]. split; [exact Hid|]. split; [reflexivity|].
  split; [reflexivity|]. split; [reflexivity|]. split; [reflexivity|].
  split; [reflexivity|].
  destruct (update_then_read this "u1" old patch s eq_refl Hid eq_refl eq_refl
              eq_refl eq_refl eq_refl)
    as (s1 & merged & Hup & Hrd & Hm).
  exists s1, merged. repeat split; try assumption.
  - rewrite Hm. reflexivity.
  - rewrite Hm. reflexivity.
Defined.

(** X9. [Firestore.update] never creates and never removes a document:
    whatever the instance, the data and the state, the stored paths are the
    same after the call as before. *)
Theorem update_keeps_paths
    (this : FirestoreModel.Firestore) (data : value) (s : platform) :
  map fst (docs (snd (FirestoreModel.update this data s))) = map fst (docs s).
Proof.
  unfold FirestoreModel.update, bind.
  pose proof (resolve_keeps_docs this (FirestoreModel.uid this) s) as Hk.
  destruct (FirestoreModel.getNestedCollectionReference this (FirestoreModel.uid this) s)
    as [[r|e] s1]; simpl in Hk; [|simpl; congruence].
  destruct r as [p|p]; simpl; [congruence|].
  unfold bind, remote.
  destruct (faults s1) as [|[e|] rest]; cbn; try congruence.
  - destruct (lookup p (docs s1)) as [old|] eqn:Hl; cbn; [|congruence].
    rewrite (keys_put_present p _ old (docs s1) Hl). congruence.
  - destruct (lookup p (docs s1)) as [old|] eqn:Hl; cbn; [|congruence].
    rewrite (keys_put_present p _ old (docs s1) Hl). congruence.
Qed.

(** X10. [Firestore.delete] returns [[true, NaN]] whether or not the
    document exists, leaves every other document as it was, and deleting
    again gives the same result and changes nothing more. *)
Theorem delete_idempotent
    (this : FirestoreModel.Firestore) (id : string) (s : platform) :
  FirestoreModel.uid this = VStr id ->
  id <> "" ->
  Nat.even (length (FirestoreModel.nestedPaths this)) = true ->
  faults s = [] ->
  exists s1,
    FirestoreModel.delete this s = (Resolved (pair_result true VNaN), s1)
    /\ (forall q,
          q <> FirestoreModel.collectionName this :: FirestoreModel.nestedPaths this ++ [id] ->
          lookup q (docs s1) = lookup q (docs s))
    /\ FirestoreModel.delete this s1 = (Resolved (pair_result true VNaN), s1).
Proof.
  intros Hu Hid Hev Hq.
  eexists. split; [apply (delete_existing this id s Hu Hid Hev Hq)|]. split.
  - intros q Hne. cbn [docs with_docs]. apply lookup_erase_other. exact Hne.
  - set (p := FirestoreModel.collectionName this :: FirestoreModel.nestedPaths this ++ [id]).
    rewrite (delete_existing this id (with_docs (erase p (docs s)) s) Hu Hid Hev Hq).
    fold p. unfold with_docs. cbn. rewrite erase_erase. reflexivity.
Qed.

Lemma delete_idempotent_witness :
  let this := FirestoreModel.mkFirestore "users" (VStr "ghost") [] in
  let s := mkPlatform [(["users"; "u1"], VObj [("name", VStr "Ann")])] [] []
                      (fun _ => "k1") 0 in
  FirestoreModel.uid this = VStr "ghost"
  /\ "ghost" <> ""
  /\ Nat.even (length (FirestoreModel.nestedPaths this)) = true
  /\ faults s = []
  /\ exists s1,
       FirestoreModel.delete this s = (Resolved (pair_result true VNaN), s1)
       /\ lookup ["users"; "u1"] (docs s1) = Some (VObj [("name", VStr "Ann")]).
Proof.
  intros this s.
  assert (Hid : "ghost" <> "") by discriminate.
  repeat split; try assumption.
  destruct (delete_idempotent this "ghost" s eq_refl Hid eq_refl eq_refl)
    as (s1 & Hd & Hframe & _).
  exists s1. split; [exact Hd|].
  rewrite Hframe by discriminate. reflexivity.
Defined.

(** X11. [Firestore.read] never changes a document: whatever it returns or
    throws, the document store after the call is the one before. *)
Theorem read_keeps_docs (this : FirestoreModel.Firestore) (s : platform) :
  docs (snd (FirestoreModel.read this s)) = docs s.
Proof.
  unfold FirestoreModel.read, bind.
  pose proof (resolve_keeps_docs this (FirestoreModel.uid this) s) as Hk.
  destruct (FirestoreModel.getNestedCollectionReference this (FirestoreModel.uid this) s)
    as [[r|e] s1]; simpl in Hk; [|simpl; congruence].
  unfold ref_get, bind, remote.
  destruct r as [p|p]; destruct (faults s1) as [|[e|] rest]; cbn;
    try congruence;
    destruct (lookup p (docs s1)); cbn; congruence.
Qed.

(** X12. With a nested path of odd length every Firestore method fails the
    same way: the resolver ends on a document reference, its last line
    calls [doc] on it, and the call rejects with that TypeError before any
    remote call is made; the platform is left as it was. *)
Theorem odd_path_rejects
    (this : FirestoreModel.Firestore) (data : value) (s : platform) :
  Nat.even (length (FirestoreModel.nestedPaths this)) = false ->
  let failure := (Rejected (A := value) (TypeError "doc is not a function"), s) in
  FirestoreModel.create this data s = failure
  /\ FirestoreModel.read this s = failure
  /\ FirestoreModel.update this data s = failure
  /\ FirestoreModel.delete this s = failure
  /\ FirestoreModel.readPaths this s = failure
  /\ FirestoreModel.readAll this s = failure.
Proof.
  intros Hodd failure. unfold failure.
  unfold FirestoreModel.create, FirestoreModel.read, FirestoreModel.update,
    FirestoreModel.delete, FirestoreModel.readAll, FirestoreModel.readPaths, bind.
  rewrite !(resolve_odd this s _ Hodd). repeat split; reflexivity.
Qed.

Lemma odd_path_rejects_witness :
  let this := FirestoreModel.mkFirestore "users" (VStr "u1") ["userA"] in
  let s := mkPlatform [(["users"; "userA"], VObj [])] [] [] (fun _ => "k1") 0 in
  Nat.even (length (FirestoreModel.nestedPaths this)) = false
  /\ FirestoreModel.read this s
     = (Rejected (TypeError "doc is not a function"), s).
Proof.
  intros this s. split; [reflexivity|].
  exact (proj1 (proj2 (odd_path_rejects this VNull s eq_refl))).
Defined.

(** X13. An instance built without a usable uid ([undefined], [null] or the
    empty string) addresses a freshly generated document id on every call:
    when no document has that id, [read] returns the not-found result,
    [delete] returns [[true, NaN]] and removes nothing, and [update] is
    rejected by the store. *)
Theorem no_uid_addresses_fresh_document
    (this : FirestoreModel.Firestore) (data : value) (s : platform) :
  truthy (FirestoreModel.uid this) = false ->
  Nat.even (length (FirestoreModel.nestedPaths this)) = true ->
  faults s = [] ->
  lookup (Resolve.auto_target this s) (docs s) = None ->
  FirestoreModel.read this s
  = (Resolved (pair_result false (VStr "Document does not exist")), Resolve.drawn s)
  /\ FirestoreModel.delete this s
     = (Resolved (pair_result true VNaN), Resolve.drawn s)
  /\ FirestoreModel.update this data s
     = (Rejected (Error "NOT_FOUND: No document to update"), Resolve.drawn s).
Proof.
  intros Hu Hev Hq Hl.
  unfold FirestoreModel.read, FirestoreModel.delete, FirestoreModel.update, bind.
  rewrite (resolve_auto_even this s _ Hev Hu).
  unfold ref_get, doc_delete, doc_update, bind.
  rewrite (remote_quiet (Resolve.drawn s) Hq).
  change (docs (Resolve.drawn s)) with (docs s). rewrite Hl.
  split; [reflexivity|]. split; [|reflexivity].
  rewrite (erase_absent _ _ Hl). destruct s; reflexivity.
Qed.

Lemma no_uid_addresses_fresh_document_witness :
  let this := FirestoreModel.mkFirestore "users" (VStr "") [] in
  let s := mkPlatform [(["users"; "u1"], VObj [("name", VStr "Ann")])] [] []
                      (fun _ => "k1") 0 in
  truthy (FirestoreModel.uid this) = false
  /\ Nat.even (length (FirestoreModel.nestedPaths this)) = true
  /\ faults s = []
  /\ lookup (Resolve.auto_target this s) (docs s) = None
  /\ FirestoreModel.read this s
     = (Resolved (pair_result false (VStr "Document does not exist")), Resolve.drawn s).
Proof.
  intros this s.
  split; [reflexivity|]. split; [reflexivity|]. split; [reflexivity|].
  split; [reflexivity|].
  exact (proj1 (no_uid_addresses_fresh_document this VNull s
                  eq_refl eq_refl eq_refl eq_refl)).
Defined.

(** X14. When no other document of the collection holds content equal to
    the record, [Firestore.create] returns the id of the document it has
    just written, the generated one. *)
Theorem create_returns_new_id
    (this : FirestoreModel.Firestore) (data : value) (s : platform) :
  Nat.even (length (FirestoreModel.nestedPaths this)) = true ->
  faults s = [] ->
  (forall id stored,
      In (FirestoreModel.collectionName this :: FirestoreModel.nestedPaths this ++ [id],
          stored) (docs s) ->
      id <> idgen s (next s) ->
      stored <> data) ->
  exists s1,
    FirestoreModel.create this data s
    = (Resolved (pair_result true (VStr (idgen s (next s)))), s1)
    /\ lookup (Resolve.auto_target this s) (docs s1) = Some data.
Proof.
  intros Hev Hq Huniq.
  set (c := FirestoreModel.collectionName this :: FirestoreModel.nestedPaths this).
  assert (Htarget : Resolve.auto_target this s = c ++ [idgen s (next s)]) by reflexivity.
  exists (Resolve.created this s data). split.
  - rewrite (create_even this s data Hev Hq). fold c.
    change (docs (Resolve.created this s data))
      with (put (Resolve.auto_target this s) data (docs s)).
    assert (Hin : In (idgen s (next s), data)
                     (children c (put (Resolve.auto_target this s) data (docs s)))).
    { apply children_in. rewrite Htarget. apply in_put. }
    destruct (first_match_found _ _ _ Hin) as [id Hid].
    rewrite Hid. simpl FirestoreModel.id_value.
    apply first_match_first in Hid as (before & after & Hsplit & _).
    assert (Hstored : In (c ++ [id], data)
                         (put (Resolve.auto_target this s) data (docs s))).
    { apply children_in. rewrite Hsplit. apply in_or_app. right. left. reflexivity. }
    apply in_put_inv in Hstored as [[Hp _]|Hold].
    + rewrite Htarget in Hp. apply app_inv_head in Hp. inversion Hp. reflexivity.
    + destruct (string_dec id (idgen s (next s))) as [Heq|Hne]; [rewrite Heq; reflexivity|].
      exfalso. apply (Huniq id data Hold Hne). reflexivity.
  - change (docs (Resolve.created this s data))
      with (put (Resolve.auto_target this s) data (docs s)).
    apply lookup_put_same.
Qed.

Lemma create_returns_new_id_witness :
  let this := FirestoreModel.mkFirestore "users" VNull [] in
  let data := VObj [("name", VStr "Bob")] in
  let s := mkPlatform [(["users"; "u1"], VObj [("name", VStr "Ann")])] [] []
                      (fun _ => "k1") 0 in
  Nat.even (length (FirestoreModel.nestedPaths this)) = true
  /\ faults s = []
  /\ exists s1,
       FirestoreModel.create this data s = (Resolved (pair_result true (VStr "k1")), s1)
       /\ lookup ["users"; "k1"] (docs s1) = Some data.
Proof.
  intros this data s. split; [reflexivity|]. split; [reflexivity|].
  apply (create_returns_new_id this data s eq_refl eq_refl).
  intros id stored [Hin|[]] _ Heq. inversion Hin as [[Hp Hs]].
  rewrite Heq in Hs. unfold data in Hs. discriminate Hs.
Defined.

Section PathStrings.

Lemma slash_free_cons (c : Ascii.ascii) (rest : string) :
  Domain.all_chars (fun c => negb (Domain.code_in [47] c)) (String c rest) = true ->
  c <> Ascii.ascii_of_nat 47
  /\ Domain.all_chars (fun c => negb (Domain.code_in [47] c)) rest = true.
Proof.
  simpl. intros H. apply andb_true_iff in H as [Hc Hrest]. split; [|exact Hrest].
  intros ->. discriminate Hc.
Qed.

(** A segment without a slash ends at the first slash of the joined path. *)
Lemma split_unique (a b r r' : string) :
  Domain.all_chars (fun c => negb (Domain.code_in [47] c)) a = true ->
  Domain.all_chars (fun c => negb (Domain.code_in [47] c)) b = true ->
  String.append a (String (Ascii.ascii_of_nat 47) r)
  = String.append b (String (Ascii.ascii_of_nat 47) r') ->
  a = b /\ r = r'.
Proof.
  revert b. induction a as [|c a IH]; intros [|c' b] Ha Hb H; simpl in H.
  - inversion H. auto.
  - inversion H as [[Hc Hr]]. apply slash_free_cons in Hb as [Hne _]. congruence.
  - inversion H as [[Hc Hr]]. apply slash_free_cons in Ha as [Hne _]. congruence.
  - inversion H as [[Hc Hr]].
    apply slash_free_cons in Ha as [_ Ha]. apply slash_free_cons in Hb as [_ Hb].
    destruct (IH b Ha Hb Hr) as [-> ->]. auto.
Qed.

Lemma no_slash_inside (a b r : string) :
  Domain.all_chars (fun c => negb (Domain.code_in [47] c)) a = true ->
  a <> String.append b (String (Ascii.ascii_of_nat 47) r).
Proof.
  revert a. induction b as [|c b IH]; intros a Ha Heq; simpl in Heq; subst a.
  - apply slash_free_cons in Ha as [Hne _]. congruence.
  - apply slash_free_cons in Ha as [_ Ha]. apply (IH _ Ha). reflexivity.
Qed.

Lemma path_string_cons (a b : string) (rest : path) :
  Domain.path_string (a :: b :: rest)
  = String.append a (String (Ascii.ascii_of_nat 47) (Domain.path_string (b :: rest))).
Proof. reflexivity. Qed.

(** Joining slash-free segments loses nothing. *)
Lemma path_string_inj (p q : path) :
  p <> [] -> q <> [] ->
  forallb Domain.plain_id p = true ->
  forallb Domain.plain_id q = true ->
  Domain.path_string p = Domain.path_string q ->
  p = q.
Proof.
  revert q. induction p as [|a p IH]; intros q Hp Hq Hfp Hfq H; [contradiction|].
  destruct q as [|b q]; [contradiction|].
  simpl in Hfp, Hfq.
  apply andb_true_iff in Hfp as [Ha Hfp]. apply andb_true_iff in Hfq as [Hb Hfq].
  unfold Domain.plain_id in Ha, Hb.
  apply andb_true_iff in Ha as [_ Ha]. apply andb_true_iff in Hb as [_ Hb].
  destruct p as [|a2 p]; destruct q as [|b2 q].
  - change (a = b) in H. rewrite H. reflexivity.
  - change (a = Domain.path_string (b :: b2 :: q)) in H.
    rewrite path_string_cons in H.
    exfalso. exact (no_slash_inside a b _ Ha H).
  - change (Domain.path_string (a :: a2 :: p) = b) in H.
    rewrite path_string_cons in H.
    exfalso. exact (no_slash_inside b a _ Hb (eq_sym H)).
  - rewrite !path_string_cons in H.
    destruct (split_unique _ _ _ _ Ha Hb H) as [-> Hrest].
    f_equal. apply IH; try assumption; discriminate.
Qed.

End PathStrings.

(** X15. Two instances address the same document only if they agree on the
    collection name, the nested path and the uid: on nested paths of even
    length, when the collection name, the segments and the uids are not
    empty and hold no slash, references with the same path string come
    from the same collection name, nested path and uid. *)
Theorem resolver_injective
    (a b : FirestoreModel.Firestore) (ida idb : string) (s : platform) :
  Nat.even (length (FirestoreModel.nestedPaths a)) = true ->
  Nat.even (length (FirestoreModel.nestedPaths b)) = true ->
  forallb Domain.plain_id
          (FirestoreModel.collectionName a :: FirestoreModel.nestedPaths a ++ [ida]) = true ->
  forallb Domain.plain_id
          (FirestoreModel.collectionName b :: FirestoreModel.nestedPaths b ++ [idb]) = true ->
  exists ra rb,
    FirestoreModel.getNestedCollectionReference a (VStr ida) s = (Resolved ra, s)
    /\ FirestoreModel.getNestedCollectionReference b (VStr idb) s = (Resolved rb, s)
    /\ (Domain.path_string (ref_path ra) = Domain.path_string (ref_path rb) ->
        FirestoreModel.collectionName a = FirestoreModel.collectionName b
        /\ FirestoreModel.nestedPaths a = FirestoreModel.nestedPaths b
        /\ ida = idb).
Proof.
  intros Ha Hb Hpa Hpb.
  assert (Hne : forall (c : string) (np : list string) (id : string),
             forallb Domain.plain_id (c :: np ++ [id]) = true -> id <> "").
  { intros c np id H. simpl in H. apply andb_true_iff in H as [_ H].
    rewrite forallb_app in H. apply andb_true_iff in H as [_ H]. simpl in H.
    unfold Domain.plain_id in H. intros ->. discriminate H. }
  eexists. eexists.
  split; [apply (resolve_id_even a s ida Ha (Hne _ _ _ Hpa))|].
  split; [apply (resolve_id_even b s idb Hb (Hne _ _ _ Hpb))|].
  cbn [ref_path]. intros Hs.
  apply path_string_inj in Hs; try assumption; try discriminate.
  inversion Hs as [[Hc Hp]]. apply app_inj_tail in Hp as [Hn Hi]. auto.
Qed.

Lemma resolver_injective_witness :
  let a := FirestoreModel.mkFirestore "users" (VStr "o1") ["userA"; "orders"] in
  let s := mkPlatform [] [] [] (fun _ => "k1") 0 in
  Nat.even (length (FirestoreModel.nestedPaths a)) = true
  /\ forallb Domain.plain_id ["users"; "userA"; "orders"; "o1"] = true
  /\ exists ra rb,
       FirestoreModel.getNestedCollectionReference a (VStr "o1") s = (Resolved ra, s)
       /\ FirestoreModel.getNestedCollectionReference a (VStr "o1") s = (Resolved rb, s)
       /\ (Domain.path_string (ref_path ra) = Domain.path_string (ref_path rb) ->
           FirestoreModel.collectionName a = FirestoreModel.collectionName a
           /\ FirestoreModel.nestedPaths a = FirestoreModel.nestedPaths a
           /\ "o1" = "o1").
Proof.
  intros a s. split; [reflexivity|]. split; [reflexivity|].
  exact (resolver_injective a a "o1" "o1" s eq_refl eq_refl eq_refl eq_refl).
Defined.

(** ** More on the Authentication wrapper *)

Section AuthenticationMore.
Import AuthenticationModel.

Lemma getUsers_run (this : Authentication) (listUsersResult : value)
    (records : list value) :
  auth_listUsers this = Resolved listUsersResult ->
  get_prop listUsersResult "users" = Resolved (VArr records) ->
  getUsers this = Resolved (VArr (map (user_entry this) records)).
Proof.
  intros Hl Hu. unfold getUsers. rewrite Hl. simpl. rewrite Hu. reflexivity.
Qed.

End AuthenticationMore.

(** X16. [getUsers] returns one entry per listed user, in order, and a
    failing Firestore read for a user does not fail the call: that user's
    entry carries [error: "No user data found"] on top of the fields of the
    user record. *)
Theorem getUsers_one_entry_per_user
    (this : AuthenticationModel.Authentication) (listUsersResult : value)
    (records : list value) :
  AuthenticationModel.auth_listUsers this = Resolved listUsersResult ->
  get_prop listUsersResult "users" = Resolved (VArr records) ->
  exists entries,
    AuthenticationModel.getUsers this = Resolved (VArr entries)
    /\ length entries = length records
    /\ forall i userRecord e,
         nth_error records i = Some userRecord ->
         AuthenticationModel.users_read this userRecord = Rejected e ->
         exists entry,
           nth_error entries i = Some entry
           /\ get_prop entry "error" = Resolved (VStr "No user data found")
           /\ forall name, name <> "error" ->
                get_prop entry name = get_prop (VObj (spread [] userRecord)) name.
Proof.
  intros Hl Hu.
  exists (map (AuthenticationModel.user_entry this) records).
  split; [apply (getUsers_run this listUsersResult records Hl Hu)|].
  split; [apply length_map|].
  intros i userRecord e Hi Hr.
  exists (AuthenticationModel.user_entry this userRecord).
  split; [apply map_nth_error; exact Hi|].
  unfold AuthenticationModel.user_entry. rewrite Hr.
  assert (Hnd : NoDup (map fst [("error", VStr "No user data found")])).
  { simpl. constructor; [intros [] | constructor]. }
  split.
  - unfold get_prop. rewrite (assoc_spread _ _ _ Hnd). reflexivity.
  - intros name Hne. unfold get_prop. rewrite (assoc_spread _ _ _ Hnd). simpl.
    destruct (String.eqb_spec name "error"); [contradiction | reflexivity].
Qed.

Lemma getUsers_one_entry_per_user_witness :
  let this := Wrappers.sample_service in
  let listed := VObj [("users", VArr [VObj [("uid", VStr "u1")]])] in
  AuthenticationModel.auth_listUsers this = Resolved listed
  /\ get_prop listed "users" = Resolved (VArr [VObj [("uid", VStr "u1")]])
  /\ exists entries,
       AuthenticationModel.getUsers this = Resolved (VArr entries)
       /\ length entries = 1.
Proof.
  intros this listed. split; [reflexivity|]. split; [reflexivity|].
  destruct (getUsers_one_entry_per_user this listed [VObj [("uid", VStr "u1")]]
              eq_refl eq_refl) as (entries & Hg & Hlen & _).
  exists entries. split; [exact Hg | exact Hlen].
Defined.

(** X17. When the service lists the users, what [getUsers] returns is never
    a [[flag, payload]] array: it is the bare array of entries, and each
    entry is an object. *)
Theorem getUsers_never_a_pair
    (this : AuthenticationModel.Authentication) (listUsersResult : value)
    (records : list value) :
  AuthenticationModel.auth_listUsers this = Resolved listUsersResult ->
  get_prop listUsersResult "users" = Resolved (VArr records) ->
  forall v,
    AuthenticationModel.getUsers this = Resolved v ->
    ~ Wrappers.two_element v.
Proof.
  intros Hl Hu v Hv.
  rewrite (getUsers_run this listUsersResult records Hl Hu) in Hv.
  inversion Hv; subst. intros (flag & payload & Heq).
  unfold pair_result in Heq. inversion Heq as [Hitems].
  destruct records as [|r rest]; [discriminate|].
  simpl in Hitems. unfold AuthenticationModel.user_entry in Hitems.
  discriminate Hitems.
Qed.

Lemma getUsers_never_a_pair_witness :
  let this := Wrappers.sample_service in
  let listed := VObj [("users", VArr [VObj [("uid", VStr "u1")]])] in
  AuthenticationModel.auth_listUsers this = Resolved listed
  /\ get_prop listed "users" = Resolved (VArr [VObj [("uid", VStr "u1")]])
  /\ ~ Wrappers.two_element
         (VArr [VObj [("uid", VStr "u1"); ("error", VStr "No user data found")]]).
Proof.
  intros this listed. split; [reflexivity|]. split; [reflexivity|].
  exact (getUsers_never_a_pair this listed [VObj [("uid", VStr "u1")]]
           eq_refl eq_refl _ eq_refl).
Defined.

(** X19. What happens when the service answers without the expected
    identity.  [createUser] with a record that has no [uid] still reports
    success, with payload [undefined]; [loginUser] with a record that has no
    [user] reports a failure, because reading [uid] of [undefined] throws
    inside the [try]; and either method given [null] or [undefined] by the
    service reports a failure. *)
Theorem missing_identity
    (this : AuthenticationModel.Authentication) (a b : value) :
  (forall fields,
      AuthenticationModel.auth_createUser this a = Resolved (VObj fields) ->
      assoc "uid" fields = None ->
      AuthenticationModel.createUser this a = Resolved (pair_result true VUndefined))
  /\ (forall fields,
        AuthenticationModel.signInWithEmailAndPassword this a b = Resolved (VObj fields) ->
        assoc "user" fields = None ->
        AuthenticationModel.loginUser this a b
        = Resolved (pair_result false
                      (VStr "Cannot read properties of undefined, reading uid")))
  /\ (forall r,
        nullish r = true ->
        (AuthenticationModel.auth_createUser this a = Resolved r ->
         exists m, AuthenticationModel.createUser this a
                   = Resolved (pair_result false (VStr m)))
        /\ (AuthenticationModel.signInWithEmailAndPassword this a b = Resolved r ->
            exists m, AuthenticationModel.loginUser this a b
                      = Resolved (pair_result false (VStr m)))).
Proof.
  split; [|split].
  - intros fields Hr Hu. unfold AuthenticationModel.createUser.
    rewrite Hr. simpl. rewrite Hu. reflexivity.
  - intros fields Hr Hu. unfold AuthenticationModel.loginUser.
    rewrite Hr. simpl. rewrite Hu. reflexivity.
  - intros r Hn. split; intros Hr.
    + unfold AuthenticationModel.createUser. rewrite Hr.
      destruct r; simpl in Hn; try discriminate; eexists; reflexivity.
    + unfold AuthenticationModel.loginUser. rewrite Hr.
      destruct r; simpl in Hn; try discriminate; eexists; reflexivity.
Qed.

Lemma missing_identity_witness :
  let this :=
    AuthenticationModel.mkAuthentication
      (fun _ => Resolved (VObj [("email", VStr "ann@example.test")]))
      (fun _ => Resolved VNull)
      (fun _ _ => Resolved (VObj [("operationType", VStr "signIn")]))
      (fun _ _ => Resolved VNull) (fun _ => Resolved VNull) (fun _ => Resolved VNull)
      (fun _ => Resolved VNull) (fun _ _ => Resolved VNull) (fun _ _ => Resolved VNull)
      (fun _ => Resolved VNull) (Resolved VNull) (fun _ => Resolved VNull) in
  AuthenticationModel.auth_createUser this VNull
  = Resolved (VObj [("email", VStr "ann@example.test")])
  /\ assoc "uid" [("email", VStr "ann@example.test")] = None
  /\ AuthenticationModel.createUser this VNull = Resolved (pair_result true VUndefined)
  /\ AuthenticationModel.loginUser this VNull VNull
     = Resolved (pair_result false
                   (VStr "Cannot read properties of undefined, reading uid")).
Proof.
  intros this. split; [reflexivity|]. split; [reflexivity|]. split.
  - exact (proj1 (missing_identity this VNull VNull) _ eq_refl eq_refl).
  - exact (proj1 (proj2 (missing_identity this VNull VNull)) _ eq_refl eq_refl).
Defined.

(** ** The verification page *)

Section Strings.

Lemma list_of_append (a b : string) :
  list_ascii_of_string (String.append a b)
  = list_ascii_of_string a ++ list_ascii_of_string b.
Proof. induction a as [|c a IH]; simpl; [reflexivity | rewrite IH; reflexivity]. Qed.

Lemma list_of_string_inj (a b : string) :
  list_ascii_of_string a = list_ascii_of_string b -> a = b.
Proof.
  intros H. rewrite <- (string_of_list_ascii_of_string a),
    <- (string_of_list_ascii_of_string b), H. reflexivity.
Qed.

Lemma append_inj_middle (h t a b : string) :
  String.append h (String.append a t) = String.append h (String.append b t) -> a = b.
Proof.
  intros H. apply (f_equal list_ascii_of_string) in H.
  rewrite !list_of_append in H.
  apply app_inv_head in H. apply app_inv_tail in H.
  apply list_of_string_inj. exact H.
Qed.

Lemma length_append (a b : string) :
  String.length (String.append a b) = String.length a + String.length b.
Proof. induction a as [|c a IH]; simpl; [reflexivity | rewrite IH; reflexivity]. Qed.

End Strings.

(** X20. [emailVerification(url)] is a fixed page with the url put in as it
    is, without any escaping, as the quoted [href] of the link: the page is
    the same head and tail around the url for every url, it is 1358
    characters longer than the url, and different urls give different
    pages. *)
Theorem emailVerification_embeds_url :
  (exists before after,
      forall url,
        AuthenticationModel.emailVerification url
        = String.append before
            (String.append
               (String.concat AuthenticationModel.dquote ["<a href="; url; EmptyString])
               after))
  /\ (forall url,
        String.length (AuthenticationModel.emailVerification url)
        = 1358 + String.length url)
  /\ (forall url1 url2,
        AuthenticationModel.emailVerification url1
        = AuthenticationModel.emailVerification url2 ->
        url1 = url2).
Proof.
  split; [|split].
  - exists (substring 0 (String.length AuthenticationModel.page_head - 9)
                      AuthenticationModel.page_head),
           (substring 1 (String.length AuthenticationModel.page_tail - 1)
                      AuthenticationModel.page_tail).
    intros url. unfold AuthenticationModel.emailVerification.
    apply list_of_string_inj.
    cbn [String.concat]. rewrite !list_of_append.
    assert (Hh : list_ascii_of_string AuthenticationModel.page_head
                 = list_ascii_of_string
                     (substring 0 (String.length AuthenticationModel.page_head - 9)
                                AuthenticationModel.page_head)
                   ++ list_ascii_of_string "<a href="
                   ++ list_ascii_of_string AuthenticationModel.dquote)
      by (vm_compute; reflexivity).
    assert (Ht : list_ascii_of_string AuthenticationModel.page_tail
                 = list_ascii_of_string AuthenticationModel.dquote
                   ++ list_ascii_of_string
                        (substring 1 (String.length AuthenticationModel.page_tail - 1)
                                   AuthenticationModel.page_tail))
      by (vm_compute; reflexivity).
    rewrite Hh, Ht. simpl list_ascii_of_string at 6.
    rewrite <- !app_assoc. reflexivity.
  - intros url. unfold AuthenticationModel.emailVerification.
    rewrite !length_append.
    assert (Hh : String.length AuthenticationModel.page_head = 931)
      by (vm_compute; reflexivity).
    assert (Ht : String.length AuthenticationModel.page_tail = 427)
      by (vm_compute; reflexivity).
    rewrite Hh, Ht. lia.
  - intros url1 url2 H. unfold AuthenticationModel.emailVerification in H.
    apply append_inj_middle in H. exact H.
Qed.

Lemma emailVerification_embeds_url_witness :
  let url := "https://example.test/v?a=1&b=2" in
  AuthenticationModel.emailVerification url = AuthenticationModel.emailVerification url
  /\ url = url
  /\ String.length (AuthenticationModel.emailVerification url) = 1358 + String.length url.
Proof.
  intros url. split; [reflexivity|]. split.
  - exact (proj2 (proj2 emailVerification_embeds_url) url url eq_refl).
  - exact (proj1 (proj2 emailVerification_embeds_url) url).
Defined.
